(** * Authentication and tenant isolation of the pandemic-data API

    A shallow embedding of [shared/docker/api/auth.py] and of the
    authentication endpoints of [shared/docker/api/api_pandemies.py].

    - The two SQL tables the code queries ([users], [sessions]) are lists of
      rows in table order; a [SELECT ... WHERE] is a [filter] and
      [cursor.fetchone()] is the [head] of the result set.
    - Python dictionaries with free keys (the process environment, the
      cookies and the headers of a request) are [gmap string string].
    - Every function of [auth.py] opens a connection, runs one transaction
      and commits it, or raises before the commit: it is a state transformer
      on the database that returns either an exception (database unchanged)
      or a value.
    - Time is an integer number of microseconds; each call receives the
      clock reading [now] it would obtain from [datetime.utcnow()] / [NOW()].
    - Random values ([secrets.token_urlsafe], [bcrypt.gensalt]) are passed in
      as arguments; bcrypt itself is a pair of section variables, each of
      which returns its value or raises a [ValueError].
    - [str.lower], which the code applies to the tenant, is a section
      variable too: no property depends on how capitals outside ASCII are
      lowered. *)

From Stdlib Require Import ZArith String Ascii List Bool Lia.
From stdpp Require Import base option list gmap strings.
From Stdlib Require Import Sorted Permutation.
Import ListNotations.

Open Scope string_scope.
Open Scope Z_scope.

(** ** Python strings *)

Module Py.

(** [s.startswith(p)] *)
Definition startswith (s p : string) : bool := String.prefix p s.

(** [c.lower()] for a character of the ASCII range. *)
Definition lower_ascii (c : ascii) : ascii :=
  let n := nat_of_ascii c in
  if (Nat.leb 65 n && Nat.leb n 90)%bool then ascii_of_nat (n + 32)%nat else c.

(** [s.lower()] for a string of ASCII characters only, such as the names of
    the headers in the code.  On other strings [str.lower] also lowers the
    capitals outside ASCII; where the code lowers a string it does not
    choose (the tenant), [str.lower] is a parameter, [str_lower]. *)
Fixpoint ascii_lower (s : string) : string :=
  match s with
  | EmptyString => EmptyString
  | String c s' => String (lower_ascii c) (ascii_lower s')
  end.

(** [s.split(sep)] for a one-character separator: consecutive separators
    delimit empty strings, and the result is never the empty list. *)
Fixpoint split (sep : ascii) (s : string) : list string :=
  match s with
  | EmptyString => [EmptyString]
  | String c s' =>
      if Ascii.eqb c sep then EmptyString :: split sep s'
      else match split sep s' with
           | [] => [String c EmptyString]
           | w :: ws => String c w :: ws
           end
  end.

(** Truth value of an [Optional[str]]: [None] and [''] are falsy. *)
Definition truthy (o : option string) : bool :=
  match o with
  | None => false
  | Some s => negb (String.eqb s "")
  end.

(** [os.getenv(key, default)] *)
Definition getenv (env : gmap string string) (key dflt : string) : string :=
  match env !! key with
  | Some v => v
  | None => dflt
  end.

End Py.

(** ** Exceptions

    The [detail] of an [HTTPException] is an f-string; it is kept as the
    sequence of its literal and interpolated parts, so that two details are
    equal exactly when they are built from the same parts. *)

(** [psycopg2.IntegrityError], raised by an [INSERT] that violates a
    constraint of the table. *)
Inductive IntegrityError : Type :=
| UniqueViolation (table column : string)
| ForeignKeyViolation (table column : string).

Inductive fpart : Type :=
| Lit (s : string)                (* literal text *)
| Fmt (s : string)                (* [{s}] for a [str] *)
| FmtList (l : list string)       (* [{l}] for a list of [str] *)
| FmtExn (e : IntegrityError).    (* [{e}] for a caught exception *)

Definition fstring : Type := list fpart.

(** What a handler raises: an [HTTPException], a [psycopg2] error, or the
    [ValueError] of a library call, with its message. *)
Inductive exn : Type :=
| HTTPException (status_code : Z) (detail : fstring)
                (headers : list (string * string))
| DatabaseError (e : IntegrityError)
| ValueError (msg : string).

(** ** Tables *)

Record user_row : Type := mk_user {
  u_id_user : Z;
  u_username : string;
  u_password_hash : string;
  u_country : string;
  u_role : string;
  u_email : option string;
  u_full_name : option string;
  u_is_active : bool;
  u_created_at : Z;
  u_last_login : option Z
}.

Record session_row : Type := mk_session {
  s_token : string;
  s_user_id : Z;
  s_expires_at : Z;
  s_ip_address : option string;
  s_user_agent : option string
}.

(** The database: both tables, the sequence behind the serial column
    [users.id_user] and the default of the column [users.is_active].
    Fields carry the alias of their table in the queries ([u], [s]). *)
Record database : Type := mk_db {
  users : list user_row;
  sessions : list session_row;
  users_id_seq : Z;
  is_active_default : bool
}.

Definition with_users (db : database) (us : list user_row) : database :=
  mk_db us (sessions db) (users_id_seq db) (is_active_default db).

Definition with_sessions (db : database) (ss : list session_row) : database :=
  mk_db (users db) ss (users_id_seq db) (is_active_default db).

Definition set_last_login (t : Z) (r : user_row) : user_row :=
  mk_user (u_id_user r) (u_username r) (u_password_hash r) (u_country r)
          (u_role r) (u_email r) (u_full_name r) (u_is_active r)
          (u_created_at r) (Some t).

(** [cursor.fetchone()]: the first row of the result set, if any. *)
Definition fetchone {A : Type} (rows : list A) : option A := head rows.

(** ** The monad of the request handlers: database state and exceptions *)

Definition M (A : Type) : Type := database -> database * (exn + A).

Definition ret {A : Type} (a : A) : M A := fun db => (db, inr a).

Definition raise {A : Type} (e : exn) : M A := fun db => (db, inl e).

Definition bind {A B : Type} (m : M A) (k : A -> M B) : M B :=
  fun db =>
    match m db with
    | (db', inr a) => k a db'
    | (db', inl e) => (db', inl e)
    end.

(** A query that only reads the database. *)
Definition reads {A : Type} (q : database -> A) : M A :=
  fun db => (db, inr (q db)).

(** A check that does not touch the database. *)
Definition lift {A : Type} (r : exn + A) : M A := fun db => (db, r).

Notation "x <-- m ;; k" := (bind m (fun x => k))
  (at level 200, m at level 99, right associativity, only parsing).
Notation "m ;;; k" := (bind m (fun _ => k))
  (at level 200, right associativity, only parsing).

(** ** Requests and responses *)

(** A request: its cookies, its headers (Starlette keeps header names in
    lower case and looks them up case-insensitively) and the host of the
    client when the server knows it. *)
Record Request : Type := mk_request {
  cookies : gmap string string;
  headers : gmap string string;
  client : option string
}.

(** [request.headers.get(name)] *)
Definition headers_get (request : Request) (name : string) : option string :=
  headers request !! Py.ascii_lower name.

Record LoginRequest : Type := mk_login_request {
  lr_username : string;
  lr_password : string
}.

Record CreateUserRequest : Type := mk_create_user_request {
  cr_username : string;
  cr_password : string;
  cr_role : string;
  cr_email : option string;
  cr_full_name : option string
}.

(** The argument of [response.set_cookie]. *)
Record cookie : Type := mk_cookie {
  cookie_key : string;
  cookie_value : string;
  cookie_httponly : bool;
  cookie_secure : bool;
  cookie_samesite : string;
  cookie_max_age : Z
}.

(** The dictionary [verify_session] returns: the columns of its [SELECT]. *)
Record session_user : Type := mk_session_user {
  cu_id_user : Z;
  cu_username : string;
  cu_country : string;
  cu_role : string;
  cu_is_active : bool;
  cu_expires_at : Z
}.

(** The dictionary [authenticate_user] returns. *)
Record auth_user : Type := mk_auth_user {
  au_id_user : Z;
  au_username : string;
  au_password_hash : string;
  au_country : string;
  au_role : string;
  au_email : option string;
  au_full_name : option string;
  au_is_active : bool
}.

(** The row [create_user] returns ([INSERT ... RETURNING]). *)
Record new_user : Type := mk_new_user {
  nu_id_user : Z;
  nu_username : string;
  nu_country : string;
  nu_role : string;
  nu_email : option string;
  nu_full_name : option string;
  nu_created_at : Z
}.

(** The ["user"] object of the login body. *)
Record user_summary : Type := mk_user_summary {
  us_username : string;
  us_country : string;
  us_role : string;
  us_full_name : option string
}.

(** The ["user"] object of the who-am-I body. *)
Record me_response : Type := mk_me_response {
  me_username : string;
  me_country : string;
  me_role : string
}.

Record login_response : Type := mk_login_response {
  login_set_cookie : cookie;
  login_message : string;
  login_user : user_summary
}.

Record logout_response : Type := mk_logout_response {
  logout_delete_cookie : string;
  logout_message : string
}.

Record create_response : Type := mk_create_response {
  create_message : string;
  create_user_row : new_user
}.

(** ** auth.py *)

Definition JWT_EXPIRE_HOURS : Z := 24.

(** [timedelta(hours=h)], in microseconds. *)
Definition timedelta_hours (h : Z) : Z := h * 3600 * 1000000.

(** Modelled from the spec: the [CREATE TABLE] statements are not among the
    sources.  [sessions.token] is the primary key of [sessions] and
    [sessions.user_id] references [users.id_user]; an [INSERT] that breaks
    either raises and inserts nothing. *)
Definition insert_session (r : session_row) : M unit :=
  fun db =>
    if existsb (fun s => String.eqb (s_token s) (s_token r)) (sessions db)
    then (db, inl (DatabaseError (UniqueViolation "sessions" "token")))
    else if negb (existsb (fun u => u_id_user u =? s_user_id r) (users db))
    then (db, inl (DatabaseError (ForeignKeyViolation "sessions" "user_id")))
    else (with_sessions db (sessions db ++ [r]), inr tt).

(** Modelled from the spec: [users.id_user] is a serial primary key, fed by
    the sequence [users_id_seq]; [is_active] and [created_at] take their
    column defaults and [last_login] is null. *)
Definition insert_user (now : Z) (username password_hash country role : string)
    (email full_name : option string) : M user_row :=
  fun db =>
    let r := mk_user (users_id_seq db) username password_hash country role
                     email full_name (is_active_default db) now None in
    if existsb (fun u => u_id_user u =? u_id_user r) (users db)
    then (db, inl (DatabaseError (UniqueViolation "users" "id_user")))
    else (mk_db (users db ++ [r]) (sessions db) (users_id_seq db + 1)
                (is_active_default db), inr r).

(** Modelled from the spec: deleting a user cascades to the sessions the
    user owns ([ON DELETE CASCADE] on [sessions.user_id]). *)
Definition delete_user_cascade (user_id : Z) (db : database) : database :=
  mk_db (List.filter (fun u => negb (u_id_user u =? user_id)) (users db))
        (List.filter (fun s => negb (s_user_id s =? user_id)) (sessions db))
        (users_id_seq db) (is_active_default db).

(** [UPDATE users SET last_login = NOW() WHERE id_user = %s] *)
Definition update_last_login (now : Z) (user_id : Z) (db : database) : database :=
  with_users db
    (map (fun u => if u_id_user u =? user_id then set_last_login now u else u)
         (users db)).

(** [rand_token] is the value of [secrets.token_urlsafe(32)]. *)
Definition create_session (rand_token : string) (now : Z) (user_id : Z)
    (ip_address user_agent : option string) : M string :=
  let token := rand_token in
  let expires_at := now + timedelta_hours JWT_EXPIRE_HOURS in
  insert_session (mk_session token user_id expires_at ip_address user_agent) ;;;
  ret token.

(** The columns [u.id_user, u.username, u.country, u.role, u.is_active,
    s.expires_at] of a session and a user. *)
Definition joined (u : user_row) (s : session_row) : session_user :=
  mk_session_user (u_id_user u) (u_username u) (u_country u) (u_role u)
               (u_is_active u) (s_expires_at s).

(** The rows of
    [sessions s JOIN users u ON s.user_id = u.id_user
     WHERE s.token = %s AND s.expires_at > NOW()]. *)
Definition session_join (token : string) (now : Z) (db : database)
    : list session_user :=
  flat_map
    (fun s =>
       map (fun u => joined u s)
           (List.filter (fun u => s_user_id s =? u_id_user u) (users db)))
    (List.filter (fun s => String.eqb (s_token s) token && (now <? s_expires_at s))
                 (sessions db)).

Definition verify_session (token : string) (now : Z) (db : database)
    : option session_user :=
  match fetchone (session_join token now db) with
  | Some result => if cu_is_active result then Some result else None
  | None => None
  end.

Definition delete_session (token : string) : M unit :=
  fun db =>
    (with_sessions db
       (List.filter (fun s => negb (String.eqb (s_token s) token)) (sessions db)),
     inr tt).

Definition get_current_user (request : Request) (now : Z) (db : database)
    : option session_user :=
  let token := cookies request !! "auth_token" in
  let token :=
    if negb (Py.truthy token) then
      match headers_get request "Authorization" with
      | Some auth_header =>
          if Py.truthy (Some auth_header) && Py.startswith auth_header "Bearer "
          then nth_error (Py.split " " auth_header) 1
          else token
      | None => token
      end
    else token in
  match token with
  | Some t => if negb (Py.truthy token) then None else verify_session t now db
  | None => None
  end.

Definition require_auth (request : Request) (now : Z) : M session_user :=
  fun db =>
    match get_current_user request now db with
    | Some user => (db, inr user)
    | None =>
        (db, inl (HTTPException 401 [Lit "Authentication required"]
                                [("WWW-Authenticate", "Bearer")]))
    end.

Definition require_country (env : gmap string string) (request : Request)
    (current_user : session_user) : exn + session_user :=
  let api_country := Py.getenv env "COUNTRY" "FRANCE" in
  if negb (String.eqb (cu_country current_user) api_country) then
    inl (HTTPException 403
           [Lit "Access denied: This is "; Fmt api_country;
            Lit " instance, you belong to "; Fmt (cu_country current_user)] [])
  else inr current_user.

Definition delete_user (user_id : Z) (admin_country : string) : M bool :=
  fun db =>
    match fetchone (List.filter (fun u => u_id_user u =? user_id) (users db)) with
    | None => (db, inl (HTTPException 404 [Lit "User not found"] []))
    | Some user =>
        if negb (String.eqb (u_country user) admin_country) then
          (db, inl (HTTPException 403
                      [Lit "Can only delete users from your country"] []))
        else if Py.startswith (u_role user) "admin_" then
          (db, inl (HTTPException 403 [Lit "Cannot delete admin users"] []))
        else (delete_user_cascade user_id db, inr true)
    end.

Section Bcrypt.

(** [bcrypt.checkpw(password, hash)] and [bcrypt.hashpw(password, salt)]:
    each returns its value, [inr], or raises a [ValueError] with a message,
    [inl] (a stored hash that is no bcrypt hash; with bcrypt 5, a password
    of more than 72 bytes). *)
Variable checkpw : string -> string -> string + bool.
Variable hashpw : string -> string -> string + string.

Definition authenticate_user (now : Z) (username password country : string)
    : M (option auth_user) :=
  fun db =>
    let user :=
      fetchone
        (List.filter
           (fun u => String.eqb (u_username u) username
                     && String.eqb (u_country u) country
                     && Bool.eqb (u_is_active u) true)
           (users db)) in
    match user with
    | None => (db, inr None)
    | Some user =>
        match checkpw password (u_password_hash user) with
        | inl msg => (db, inl (ValueError msg))
        | inr true =>
            (update_last_login now (u_id_user user) db,
             inr (Some (mk_auth_user (u_id_user user) (u_username user)
                          (u_password_hash user) (u_country user) (u_role user)
                          (u_email user) (u_full_name user) (u_is_active user))))
        | inr false => (db, inr None)
        end
    end.

(** [rand_salt] is the value of [bcrypt.gensalt()]. *)
Definition hash_password (rand_salt : string) (password : string)
    : string + string :=
  hashpw password rand_salt.

Definition create_user (rand_salt : string) (now : Z)
    (username password country role : string)
    (email full_name : option string) : M new_user :=
  fun db =>
    if existsb (fun u => String.eqb (u_username u) username) (users db) then
      (db, inl (HTTPException 400 [Lit "Username already exists"] []))
    else
      match hash_password rand_salt password with
      | inl msg => (db, inl (ValueError msg))
      | inr password_hash =>
          (user <-- insert_user now username password_hash country role
                                email full_name ;;
           ret (mk_new_user (u_id_user user) (u_username user) (u_country user)
                            (u_role user) (u_email user) (u_full_name user)
                            (u_created_at user))) db
      end.

End Bcrypt.

(** ** api_pandemies.py: the authentication endpoints

    A parameter [current_user = Depends(require_auth)] is resolved before the
    body of the endpoint runs. *)

Definition logout (request : Request) : M logout_response :=
  let token := cookies request !! "auth_token" in
  match token with
  | Some t => if Py.truthy token then delete_session t else ret tt
  | None => ret tt
  end ;;;
  ret (mk_logout_response "auth_token" "Logout successful").

Definition get_current_user_info (env : gmap string string) (now : Z)
    (request : Request) : M me_response :=
  current_user <-- require_auth request now ;;
  current_user <-- lift (require_country env request current_user) ;;
  ret (mk_me_response (cu_username current_user) (cu_country current_user)
                      (cu_role current_user)).

Definition delete_user_endpoint (env : gmap string string) (now : Z)
    (user_id : Z) (request : Request) : M string :=
  current_user <-- require_auth request now ;;
  current_user <-- lift (require_country env request current_user) ;;
  if negb (Py.startswith (cu_role current_user) "admin_") then
    raise (HTTPException 403 [Lit "Admin access required"] [])
  else
    fun db =>
      match delete_user user_id (cu_country current_user) db with
      | (db', inr _) => (db', inr "User deleted successfully")
      | (db', inl (HTTPException c d h)) => (db', inl (HTTPException c d h))
      | (db', inl (DatabaseError e)) =>
          (db', inl (HTTPException 500 [Lit "Error deleting user: "; FmtExn e] []))
      | (db', inl (ValueError msg)) =>
          (db', inl (HTTPException 500 [Lit "Error deleting user: "; Fmt msg] []))
      end.

Section Endpoints.

Variable checkpw : string -> string -> string + bool.
Variable hashpw : string -> string -> string + string.

(** [str.lower] *)
Variable str_lower : string -> string.

Definition login (env : gmap string string) (rand_token : string) (now : Z)
    (request : Request) (login_data : LoginRequest) : M login_response :=
  let country := Py.getenv env "COUNTRY" "FRANCE" in
  user <-- authenticate_user checkpw now (lr_username login_data)
                             (lr_password login_data) country ;;
  match user with
  | None =>
      raise (HTTPException 401 [Lit "Invalid credentials or wrong country"] [])
  | Some user =>
      let ip_address := client request in
      let user_agent :=
        match headers_get request "User-Agent" with
        | Some a => a
        | None => ""
        end in
      session_token <-- create_session rand_token now (au_id_user user)
                                       ip_address (Some user_agent) ;;
      ret (mk_login_response
             (mk_cookie "auth_token" session_token true false "lax"
                        (24 * 60 * 60))
             "Login successful"
             (mk_user_summary (au_username user) (au_country user)
                              (au_role user) (au_full_name user)))
  end.

Definition create_new_user (env : gmap string string) (rand_salt : string)
    (now : Z) (request : Request) (user_data : CreateUserRequest)
    : M create_response :=
  current_user <-- require_auth request now ;;
  current_user <-- lift (require_country env request current_user) ;;
  if negb (Py.startswith (cu_role current_user) "admin_") then
    raise (HTTPException 403 [Lit "Admin access required"] [])
  else
    let country := cu_country current_user in
    let valid_roles :=
      [String.append "chercheur_" (str_lower country);
       String.append "admin_" (str_lower country)] in
    if negb (existsb (String.eqb (cr_role user_data)) valid_roles) then
      raise (HTTPException 400
               [Lit "Invalid role. Valid roles for "; Fmt country; Lit ": ";
                FmtList valid_roles] [])
    else
      fun db =>
        match create_user hashpw rand_salt now (cr_username user_data)
                          (cr_password user_data) country (cr_role user_data)
                          (cr_email user_data) (cr_full_name user_data) db with
        | (db', inr new_user) =>
            (db', inr (mk_create_response "User created successfully" new_user))
        | (db', inl (HTTPException c d h)) => (db', inl (HTTPException c d h))
        | (db', inl (DatabaseError e)) =>
            (db', inl (HTTPException 500
                         [Lit "Error creating user: "; FmtExn e] []))
        | (db', inl (ValueError msg)) =>
            (db', inl (HTTPException 500
                         [Lit "Error creating user: "; Fmt msg] []))
        end.

End Endpoints.

(** ** Sample data *)

Module Sample.

(** A stand-in for bcrypt 5: the hash of a password is the password behind
    a salt and a separator; a password of more than 72 bytes is refused, and
    so is a hash of another shape. *)
Definition too_long : string :=
  "password cannot be longer than 72 bytes, truncate manually if necessary (e.g. my_password[:72])".

Definition hashpw (password salt : string) : string + string :=
  if Nat.ltb 72 (String.length password) then inl too_long
  else inr (String.append salt (String.append "$" password)).

Definition checkpw (password hash : string) : string + bool :=
  if Nat.ltb 72 (String.length password) then inl too_long
  else match Py.split "$" hash with
       | [_; p] => inr (String.eqb p password)
       | _ => inl "Invalid salt"
       end.

(** A password of 73 bytes. *)
Definition long_password : string :=
  "0123456789012345678901234567890123456789012345678901234567890123456789012".

Definition alice : user_row :=
  mk_user 1 "alice" "s1$correct-pw" "FRANCE" "chercheur_france"
          None (Some "Alice") true 0 None.

Definition root_fr : user_row :=
  mk_user 2 "root_fr" "s2$admin-pw" "FRANCE" "admin_france"
          None None true 0 None.

Definition root_us : user_row :=
  mk_user 3 "root_us" "s3$admin-pw" "USA" "admin_usa"
          None None true 0 None.

Definition bob : user_row :=
  mk_user 4 "bob" "s4$bob-pw" "FRANCE" "chercheur_france"
          None None false 0 None.

Definition sess_alice : session_row :=
  mk_session "tok-alice" 1 1000 None None.

Definition sess_root_fr : session_row :=
  mk_session "tok-root-fr" 2 1000 None None.

Definition sess_bob : session_row :=
  mk_session "tok-bob" 4 1000 None None.

Definition sess_root_us : session_row :=
  mk_session "tok-root-us" 3 1000 None None.

Definition db0 : database :=
  mk_db [alice; root_fr; root_us; bob]
        [sess_alice; sess_root_fr; sess_bob; sess_root_us] 5 true.

Definition env_fr : gmap string string := <["COUNTRY" := "FRANCE"]> ∅.

Definition env_us : gmap string string := <["COUNTRY" := "USA"]> ∅.

Definition req (cookie_tok bearer : option string) : Request :=
  mk_request
    (match cookie_tok with
     | Some t => <["auth_token" := t]> ∅
     | None => ∅
     end)
    (match bearer with
     | Some h => <["authorization" := h]> ∅
     | None => ∅
     end)
    (Some "10.0.0.1").

End Sample.

(** ** Constraints of the schema and causes of a failed login *)

(** Modelled from the spec: the [CREATE TABLE] statements are not among the
    sources.  User ids and session tokens are primary keys, usernames are
    unique in the whole system, every session belongs to a stored user, and
    the sequence of user ids is ahead of every id in use. *)
Record db_wf (db : database) : Prop := mk_db_wf {
  wf_users_pk : List.NoDup (map u_id_user (users db));
  wf_users_username : List.NoDup (map u_username (users db));
  wf_sessions_pk : List.NoDup (map s_token (sessions db));
  wf_sessions_fk :
    forall s, In s (sessions db) ->
              exists u, In u (users db) /\ u_id_user u = s_user_id s;
  wf_users_seq : forall u, In u (users db) -> u_id_user u < users_id_seq db
}.

(** The four reasons for which a (username, password, tenant) triple is not
    a valid credential in [db]. *)
Inductive login_failure (checkpw : string -> string -> string + bool)
    (db : database)
    (username password country : string) : Prop :=
| unknown_username :
    (forall u, In u (users db) -> u_username u <> username) ->
    login_failure checkpw db username password country
| wrong_tenant :
    (forall u, In u (users db) -> u_username u = username ->
               u_country u <> country) ->
    login_failure checkpw db username password country
| inactive_user :
    (forall u, In u (users db) -> u_username u = username ->
               u_country u = country -> u_is_active u = false) ->
    login_failure checkpw db username password country
| wrong_password :
    (forall u, In u (users db) -> u_username u = username ->
               u_country u = country ->
               checkpw password (u_password_hash u) = inr false) ->
    login_failure checkpw db username password country.

(** The errors of the taxonomy, as the code raises them. *)
Definition InvalidCredentials : exn :=
  HTTPException 401 [Lit "Invalid credentials or wrong country"] [].

Definition TenantMismatch (api_country user_country : string) : exn :=
  HTTPException 403
    [Lit "Access denied: This is "; Fmt api_country;
     Lit " instance, you belong to "; Fmt user_country] [].

Definition ForeignTenant : exn :=
  HTTPException 403 [Lit "Can only delete users from your country"] [].

Definition ProtectedRole : exn :=
  HTTPException 403 [Lit "Cannot delete admin users"] [].

Definition DuplicateUsername : exn :=
  HTTPException 400 [Lit "Username already exists"] [].

Definition InvalidRole (country : string) (valid_roles : list string) : exn :=
  HTTPException 400
    [Lit "Invalid role. Valid roles for "; Fmt country; Lit ": ";
     FmtList valid_roles] [].

(** ** auth.py and api_pandemies.py: the list of the users of a tenant *)

(** The columns that [get_users_by_country] selects: a user row without its
    password hash. *)
Record listed_user : Type := mk_listed_user {
  lu_id_user : Z;
  lu_username : string;
  lu_country : string;
  lu_role : string;
  lu_email : option string;
  lu_full_name : option string;
  lu_is_active : bool;
  lu_created_at : Z;
  lu_last_login : option Z
}.

Definition listed (u : user_row) : listed_user :=
  mk_listed_user (u_id_user u) (u_username u) (u_country u) (u_role u)
                 (u_email u) (u_full_name u) (u_is_active u) (u_created_at u)
                 (u_last_login u).

(** [ORDER BY]: the rows are inserted one by one at their place for the
    comparison [leb]; rows that compare equal keep the order of the table. *)
Fixpoint insert_by {A : Type} (leb : A -> A -> bool) (x : A) (l : list A)
    : list A :=
  match l with
  | [] => [x]
  | y :: l' => if leb x y then x :: l else y :: insert_by leb x l'
  end.

Definition order_by {A : Type} (leb : A -> A -> bool) (l : list A) : list A :=
  fold_right (insert_by leb) [] l.

(** [ORDER BY created_at DESC] *)
Definition created_at_desc (a b : user_row) : bool :=
  u_created_at b <=? u_created_at a.

Section Collation.

(** The order of the collation of the column [users.role]. *)
Variable role_leb : string -> string -> bool.

(** [ORDER BY role, created_at DESC] *)
Definition role_then_created_at_desc (a b : user_row) : bool :=
  if role_leb (u_role a) (u_role b) && role_leb (u_role b) (u_role a)
  then created_at_desc a b
  else role_leb (u_role a) (u_role b).

Definition get_users_by_country (country : string) (role : option string)
    (db : database) : list listed_user :=
  match role with
  | Some r =>
      if Py.truthy role then
        map listed
          (order_by created_at_desc
             (List.filter (fun u => String.eqb (u_country u) country
                                    && String.eqb (u_role u) r)
                          (users db)))
      else
        map listed
          (order_by role_then_created_at_desc
             (List.filter (fun u => String.eqb (u_country u) country) (users db)))
  | None =>
      map listed
        (order_by role_then_created_at_desc
           (List.filter (fun u => String.eqb (u_country u) country) (users db)))
  end.

Definition get_users (env : gmap string string) (now : Z) (request : Request)
    : M (list listed_user) :=
  current_user <-- require_auth request now ;;
  current_user <-- lift (require_country env request current_user) ;;
  if negb (Py.startswith (cu_role current_user) "admin_") then
    raise (HTTPException 403 [Lit "Admin access required"] [])
  else
    reads (get_users_by_country (cu_country current_user) None).

End Collation.

(** ** streamlit_auth.py: the roles offered by the form of [admin_panel]

    [COUNTRY] is the value of [os.getenv('COUNTRY', 'FRANCE')] in the process
    of the dashboard and [str_lower] is [str.lower]. *)
Definition role_options (str_lower : string -> string) (COUNTRY : string)
    : list string :=
  let country_lower := str_lower COUNTRY in
  let country_lower :=
    if String.eqb country_lower "suisse" then "suisse"
    else if String.eqb country_lower "usa" then "usa"
    else "france" in
  [String.append "chercheur_" country_lower;
   String.append "admin_" country_lower].

(** ** Further names for the errors and the effects of the code *)

Definition Unauthenticated : exn :=
  HTTPException 401 [Lit "Authentication required"]
                [("WWW-Authenticate", "Bearer")].

Definition Forbidden : exn :=
  HTTPException 403 [Lit "Admin access required"] [].

Definition NotFound : exn :=
  HTTPException 404 [Lit "User not found"] [].

(** What [UPDATE users SET last_login = ... WHERE id_user = user_id] may do
    to one row: nothing, or set the last login of a row with that id. *)
Definition touched (now user_id : Z) (u u' : user_row) : Prop :=
  u' = u \/ (u_id_user u = user_id /\ u' = set_last_login now u).

(** The session that [login] stores for the user [u]: the token drawn, the
    expiry 24 hours after [now], the host and the agent of the client. *)
Definition new_session (rand_token : string) (now : Z) (request : Request)
    (u : user_row) : session_row :=
  mk_session rand_token (u_id_user u) (now + timedelta_hours JWT_EXPIRE_HOURS)
             (client request)
             (Some match headers_get request "User-Agent" with
                   | Some a => a
                   | None => ""
                   end).

(** No character of [s] is a space. *)
Definition no_space (s : string) : Prop :=
  ~ In " "%char (list_ascii_of_string s).

(** The token [token] belongs to a session of the user [user_id]. *)
Definition token_of (db : database) (token : string) (user_id : Z) : Prop :=
  exists s, In s (sessions db) /\ s_token s = token /\ s_user_id s = user_id.

(** ** More sample data *)

Module Demo.

Definition data_alice : LoginRequest := mk_login_request "alice" "correct-pw".

(** The answer of a successful login of alice with the token [tok]. *)
Definition resp_alice (tok : string) : login_response :=
  mk_login_response
    (mk_cookie "auth_token" tok true false "lax" (24 * 60 * 60))
    "Login successful"
    (mk_user_summary "alice" "FRANCE" "chercheur_france" (Some "Alice")).

(** The database after alice has logged in at time 5 with the token ["T"],
    and after she has logged in again at time 7 with the token ["T2"]. *)
Definition db_T : database :=
  fst (login Sample.checkpw Sample.env_fr "T" 5 (Sample.req None None)
             data_alice Sample.db0).

Definition db_T2 : database :=
  fst (login Sample.checkpw Sample.env_fr "T2" 7 (Sample.req None None)
             data_alice db_T).

(** An instance for a tenant that the form of the dashboard does not know. *)
Definition root_de : user_row :=
  mk_user 1 "root_de" "s1$admin-pw" "GERMANY" "admin_germany"
          None None true 0 None.

Definition db_de : database :=
  mk_db [root_de] [mk_session "tok-root-de" 1 1000 None None] 2 true.

Definition env_de : gmap string string := <["COUNTRY" := "GERMANY"]> ∅.

End Demo.

(** * Properties *)

(** ** Result sets *)

Section ResultSets.

Context {A B : Type}.
Implicit Types (p : A -> bool) (f : A -> B) (l : list A).

Lemma fetchone_filter_some p l x :
  fetchone (List.filter p l) = Some x -> In x l /\ p x = true.
Proof.
  unfold fetchone. intros H. apply filter_In.
  destruct (List.filter p l) as [|y r]; [discriminate|].
  injection H as ->. now left.
Qed.

Lemma fetchone_filter_none p l :
  fetchone (List.filter p l) = None <-> (forall x, In x l -> p x = false).
Proof.
  unfold fetchone. split.
  - intros H x Hx. destruct (p x) eqn:E; [|reflexivity].
    assert (Hin : In x (List.filter p l)) by (apply filter_In; auto).
    destruct (List.filter p l); [destruct Hin | discriminate].
  - intros H. destruct (List.filter p l) as [|y r] eqn:E; [reflexivity|].
    assert (Hin : In y (List.filter p l)) by (rewrite E; now left).
    apply filter_In in Hin as [Hin Hp]. rewrite (H y Hin) in Hp. discriminate.
Qed.

Lemma filter_nil p l :
  (forall x, In x l -> p x = false) -> List.filter p l = [].
Proof.
  induction l as [|a l IH]; intros H; [reflexivity|]. simpl.
  rewrite (H a (or_introl eq_refl)). apply IH. intros x Hx. apply H. now right.
Qed.

Lemma NoDup_map_In_inj f l x y :
  List.NoDup (map f l) -> In x l -> In y l -> f x = f y -> x = y.
Proof.
  induction l as [|a l IH]; simpl; [tauto|].
  intros Hnd Hx Hy Hf. inversion Hnd as [|? ? Hnotin Hnd']; subst.
  destruct Hx as [->|Hx], Hy as [->|Hy]; auto.
  - exfalso. apply Hnotin. rewrite Hf. now apply in_map.
  - exfalso. apply Hnotin. rewrite <- Hf. now apply in_map.
Qed.

(** A selection on a unique key returns at most the row that holds it. *)
Lemma filter_key_unique f p l x :
  List.NoDup (map f l) -> In x l -> p x = true ->
  (forall y, In y l -> p y = true -> f y = f x) ->
  List.filter p l = [x].
Proof.
  intros Hnd Hx Hp Hkey.
  assert (Hall : forall y, In y l -> p y = true -> y = x).
  { intros y Hy Hpy. apply (NoDup_map_In_inj f l); auto. }
  clear Hkey. induction l as [|a l IH]; [destruct Hx|].
  inversion Hnd as [|? ? Hnotin Hnd']; subst. simpl.
  destruct (p a) eqn:Ea.
  - assert (a = x) as -> by (apply Hall; [now left | exact Ea]).
    f_equal. apply filter_nil. intros y Hy.
    destruct (p y) eqn:Ey; [|reflexivity].
    exfalso. apply Hnotin.
    rewrite <- (Hall y (or_intror Hy) Ey). now apply in_map.
  - destruct Hx as [->|Hx]; [congruence|].
    apply IH; auto. intros y Hy. apply Hall. now right.
Qed.

End ResultSets.

(** ** The monad *)

Lemma bind_inr {A B : Type} (m : M A) (k : A -> M B) db db' a :
  m db = (db', inr a) -> bind m k db = k a db'.
Proof. unfold bind. now intros ->. Qed.

Lemma bind_inl {A B : Type} (m : M A) (k : A -> M B) db db' e :
  m db = (db', inl e) -> bind m k db = (db', inl e).
Proof. unfold bind. now intros ->. Qed.

(** ** Tenant enforcement *)

Lemma require_auth_some request now db user :
  get_current_user request now db = Some user ->
  require_auth request now db = (db, inr user).
Proof. unfold require_auth. now intros ->. Qed.

Lemma require_country_match env request user :
  cu_country user = Py.getenv env "COUNTRY" "FRANCE" ->
  require_country env request user = inr user.
Proof.
  intros H. unfold require_country.
  apply String.eqb_eq in H. now rewrite H.
Qed.

Lemma require_country_mismatch env request user :
  cu_country user <> Py.getenv env "COUNTRY" "FRANCE" ->
  require_country env request user =
  inl (TenantMismatch (Py.getenv env "COUNTRY" "FRANCE") (cu_country user)).
Proof.
  intros H. unfold require_country.
  apply String.eqb_neq in H. now rewrite H.
Qed.

Lemma require_country_iff env request user :
  require_country env request user = inr user <->
  cu_country user = Py.getenv env "COUNTRY" "FRANCE".
Proof.
  split.
  - intros H. destruct (String.eqb_spec (cu_country user)
                          (Py.getenv env "COUNTRY" "FRANCE")) as [E|E]; [exact E|].
    rewrite (require_country_mismatch _ _ _ E) in H. discriminate.
  - apply require_country_match.
Qed.

(** C1. [require_country] returns the user exactly when the tenant of the
    user is the tenant of the instance; on any other tenant it raises the
    403 [TenantMismatch], and so does each protected endpoint, although the
    session presented resolves to an active user. *)
Theorem require_country_fails_closed :
  forall (env : gmap string string) (request : Request) (user : session_user),
    (require_country env request user = inr user <->
     cu_country user = Py.getenv env "COUNTRY" "FRANCE")
    /\ (cu_country user <> Py.getenv env "COUNTRY" "FRANCE" ->
        require_country env request user =
        inl (TenantMismatch (Py.getenv env "COUNTRY" "FRANCE") (cu_country user))
        /\ forall now db,
            get_current_user request now db = Some user ->
            get_current_user_info env now request db =
              (db, inl (TenantMismatch (Py.getenv env "COUNTRY" "FRANCE")
                                       (cu_country user)))
            /\ (forall user_id,
                   delete_user_endpoint env now user_id request db =
                   (db, inl (TenantMismatch (Py.getenv env "COUNTRY" "FRANCE")
                                            (cu_country user))))
            /\ (forall hashpw str_lower rand_salt user_data,
                   create_new_user hashpw str_lower env rand_salt now request user_data db =
                   (db, inl (TenantMismatch (Py.getenv env "COUNTRY" "FRANCE")
                                            (cu_country user))))).
Proof.
  intros env request user. split; [apply require_country_iff|].
  intros Hne. pose proof (require_country_mismatch env request user Hne) as Hrc.
  split; [exact Hrc|]. intros now db Hcur.
  pose proof (require_auth_some _ _ _ _ Hcur) as Hra.
  repeat split; intros;
    [ unfold get_current_user_info
    | unfold delete_user_endpoint
    | unfold create_new_user ];
    rewrite (bind_inr _ _ _ _ _ Hra);
    apply bind_inl; unfold lift; now rewrite Hrc.
Qed.

(** ** Session resolution *)

Lemma session_join_unknown db token now :
  (forall s, In s (sessions db) -> s_token s <> token) ->
  session_join token now db = [].
Proof.
  intros H. unfold session_join. rewrite filter_nil; [reflexivity|].
  intros s Hs. apply andb_false_intro1. apply String.eqb_neq. now apply H.
Qed.

Lemma session_join_known db token now s u :
  db_wf db ->
  In s (sessions db) -> s_token s = token ->
  In u (users db) -> u_id_user u = s_user_id s ->
  session_join token now db =
  if now <? s_expires_at s then [joined u s] else [].
Proof.
  intros Hwf Hs Htok Hu Hid. unfold session_join.
  destruct (now <? s_expires_at s) eqn:Elive.
  - rewrite (filter_key_unique s_token _ (sessions db) s).
    + simpl. rewrite (filter_key_unique u_id_user _ (users db) u).
      * reflexivity.
      * apply (wf_users_pk db Hwf).
      * exact Hu.
      * apply Z.eqb_eq. now symmetry.
      * intros y _ Hy. apply Z.eqb_eq in Hy. congruence.
    + apply (wf_sessions_pk db Hwf).
    + exact Hs.
    + rewrite Elive, andb_true_r. now apply String.eqb_eq.
    + intros y _ Hy. apply andb_prop in Hy as [Hy _].
      apply String.eqb_eq in Hy. congruence.
  - rewrite filter_nil; [reflexivity|].
    intros y Hy.
    destruct (String.eqb_spec (s_token y) token) as [E|E]; [|reflexivity].
    assert (y = s) as ->.
    { apply (NoDup_map_In_inj s_token (sessions db)); auto.
      - apply (wf_sessions_pk db Hwf).
      - congruence. }
    now rewrite Elive.
Qed.

Lemma find_session db token :
  (forall s, In s (sessions db) -> s_token s <> token)
  \/ (exists s, In s (sessions db) /\ s_token s = token).
Proof.
  destruct (find (fun s => String.eqb (s_token s) token) (sessions db))
    as [s|] eqn:E.
  - right. apply find_some in E as [Hs Ht]. apply String.eqb_eq in Ht. eauto.
  - left. intros s Hs. apply String.eqb_neq.
    exact (find_none _ _ E s Hs).
Qed.

(** C7. On a database that satisfies the constraints of its schema,
    [verify_session] returns [None] exactly when the token is unknown, or
    the expiry of its session is not strictly later than [now], or the owner
    of the session is inactive.  Any other token, that of a session with
    [now] before its expiry and an active owner, resolves to the identity
    of that owner: the id, the username, the tenant and the role of the
    owner's row, the active flag, and the expiry of the session. *)
Theorem verify_session_resolves :
  forall (db : database) (token : string) (now : Z),
    db_wf db ->
    (verify_session token now db = None <->
       (forall s, In s (sessions db) -> s_token s <> token)
       \/ (exists s, In s (sessions db) /\ s_token s = token
                     /\ s_expires_at s <= now)
       \/ (exists s u, In s (sessions db) /\ s_token s = token
                       /\ In u (users db) /\ u_id_user u = s_user_id s
                       /\ u_is_active u = false))
    /\ (forall s u,
           In s (sessions db) -> s_token s = token ->
           In u (users db) -> u_id_user u = s_user_id s ->
           now < s_expires_at s -> u_is_active u = true ->
           verify_session token now db
           = Some (mk_session_user (u_id_user u) (u_username u) (u_country u)
                                   (u_role u) true (s_expires_at s)))
    /\ (forall r, verify_session token now db = Some r ->
          exists s u, In s (sessions db) /\ s_token s = token
                      /\ now < s_expires_at s
                      /\ In u (users db) /\ u_id_user u = s_user_id s
                      /\ u_is_active u = true
                      /\ cu_id_user r = u_id_user u
                      /\ cu_username r = u_username u
                      /\ cu_country r = u_country u
                      /\ cu_role r = u_role u
                      /\ cu_is_active r = true
                      /\ cu_expires_at r = s_expires_at s).
Proof.
  intros db token now Hwf. unfold verify_session.
  destruct (find_session db token) as [Hunk | (s & Hs & Htok)].
  - rewrite (session_join_unknown _ _ _ Hunk). simpl. split; [|split].
    + split; auto.
    + intros s u Hs Htok. exfalso. exact (Hunk s Hs Htok).
    + discriminate.
  - destruct (wf_sessions_fk db Hwf s Hs) as (u & Hu & Hid).
    rewrite (session_join_known db token now s u Hwf Hs Htok Hu Hid).
    assert (Hsame : forall s', In s' (sessions db) -> s_token s' = token -> s' = s).
    { intros s' Hs' Ht'. apply (NoDup_map_In_inj s_token (sessions db)); auto.
      - apply (wf_sessions_pk db Hwf).
      - congruence. }
    assert (Howner : forall u', In u' (users db) -> u_id_user u' = s_user_id s ->
                                u' = u).
    { intros u' Hu' Hid'. apply (NoDup_map_In_inj u_id_user (users db)); auto.
      - apply (wf_users_pk db Hwf).
      - congruence. }
    destruct (now <? s_expires_at s) eqn:Elive; simpl.
    + apply Z.ltb_lt in Elive. unfold joined. simpl.
      destruct (u_is_active u) eqn:Eact.
      * split; [|split].
        -- split; [discriminate|].
           intros [Hunk | [(s' & Hs' & Ht' & Hexp) | (s' & u' & Hs' & Ht' & Hu' & Hid' & Hact)]].
           ++ exfalso. exact (Hunk s Hs Htok).
           ++ rewrite (Hsame s' Hs' Ht') in Hexp. lia.
           ++ rewrite (Hsame s' Hs' Ht') in Hid'.
              rewrite (Howner u' Hu' Hid') in Hact. congruence.
        -- intros s' u' Hs' Ht' Hu' Hid' _ _.
           rewrite (Hsame s' Hs' Ht') in *. now rewrite (Howner u' Hu' Hid').
        -- intros r Hr. injection Hr as <-. exists s, u. simpl.
           repeat (split; [assumption || reflexivity|]). reflexivity.
      * split; [|split].
        -- split; auto. intros _. right. right. exists s, u. auto 10.
        -- intros s' u' Hs' Ht' Hu' Hid' _ Hact'.
           rewrite (Hsame s' Hs' Ht') in Hid'.
           rewrite (Howner u' Hu' Hid') in Hact'. congruence.
        -- discriminate.
    + apply Z.ltb_ge in Elive. split; [|split].
      * split; auto. intros _. right. left. exists s. auto.
      * intros s' u' Hs' Ht' _ _ Hlive' _.
        rewrite (Hsame s' Hs' Ht') in Hlive'. lia.
      * discriminate.
Qed.

(** ** The constraints of the schema are kept *)

Lemma update_last_login_keys now user_id db :
  map u_id_user (users (update_last_login now user_id db)) = map u_id_user (users db)
  /\ map u_username (users (update_last_login now user_id db))
     = map u_username (users db).
Proof.
  unfold update_last_login. simpl. rewrite !map_map.
  split; apply map_ext; intros u; now destruct (u_id_user u =? user_id).
Qed.

Lemma update_last_login_in now db u :
  In u (users db) ->
  In (set_last_login now u) (users (update_last_login now (u_id_user u) db)).
Proof.
  intros Hu. unfold update_last_login. simpl. apply in_map_iff.
  exists u. now rewrite Z.eqb_refl.
Qed.

Lemma in_map_key {A B : Type} (f : A -> B) (l l' : list A) (b : B) :
  map f l' = map f l -> (exists x, In x l /\ f x = b) ->
  exists x, In x l' /\ f x = b.
Proof.
  intros Hmap (x & Hx & Hb).
  assert (Hin : In b (map f l')) by (rewrite Hmap, <- Hb; now apply in_map).
  apply in_map_iff in Hin as (y & Hy & Hin). eauto.
Qed.

Lemma NoDup_snoc {A : Type} (l : list A) (a : A) :
  List.NoDup l -> ~ In a l -> List.NoDup (l ++ [a])%list.
Proof.
  induction l as [|b l IH]; simpl; intros Hnd Hnotin.
  - constructor; [intros []|constructor].
  - inversion Hnd as [|? ? Hb Hnd']; subst. constructor.
    intros Hin. apply in_app_or in Hin as [Hin|[->|[]]]; tauto.
    + apply IH; tauto.
Qed.

Lemma update_last_login_wf now user_id db :
  db_wf db -> db_wf (update_last_login now user_id db).
Proof.
  intros [Hpk Hname Htok Hfk Hseq].
  destruct (update_last_login_keys now user_id db) as [Hids Hnames].
  constructor.
  - now rewrite Hids.
  - now rewrite Hnames.
  - exact Htok.
  - intros s Hs. apply (in_map_key u_id_user (users db)); auto.
  - intros u Hu. unfold update_last_login in Hu. simpl in Hu.
    apply in_map_iff in Hu as (u0 & <- & Hu0). specialize (Hseq u0 Hu0).
    now destruct (u_id_user u0 =? user_id).
Qed.

Lemma insert_session_wf r db db' :
  db_wf db -> insert_session r db = (db', inr tt) ->
  db_wf db' /\ users db' = users db /\ sessions db' = (sessions db ++ [r])%list.
Proof.
  intros [Hpk Hname Htok Hfk Hseq]. unfold insert_session.
  destruct (existsb _ (sessions db)) eqn:Edup; [discriminate|].
  destruct (existsb _ (users db)) eqn:Eown; [|discriminate].
  simpl. intros H. inversion H; subst; clear H. simpl.
  split; [|auto]. constructor; simpl; auto.
  - rewrite map_app. simpl. apply NoDup_snoc; [exact Htok|].
    intros Hin.
      apply in_map_iff in Hin as (s & Hs & Hin).
      assert (existsb (fun s0 => String.eqb (s_token s0) (s_token r)) (sessions db)
              = true).
      { apply existsb_exists. exists s. split; auto. now apply String.eqb_eq. }
      congruence.
  - intros s Hs. apply in_app_or in Hs as [Hs|[<-|[]]]; [now apply Hfk|].
    apply existsb_exists in Eown as (u & Hu & Hid). apply Z.eqb_eq in Hid. eauto.
Qed.

Lemma delete_session_wf token db :
  db_wf db -> db_wf (fst (delete_session token db)).
Proof.
  intros [Hpk Hname Htok Hfk Hseq]. unfold delete_session. simpl.
  constructor; simpl; auto.
  - clear Hfk. induction (sessions db) as [|s l IH]; simpl; [constructor|].
    inversion Htok as [|? ? Hnotin Hnd]; subst.
    destruct (negb _); simpl; auto. constructor; auto.
    intros Hin. apply Hnotin. apply in_map_iff in Hin as (s' & Hs' & Hin).
    apply filter_In in Hin as [Hin _]. apply in_map_iff. eauto.
  - intros s Hs. apply filter_In in Hs as [Hs _]. auto.
Qed.

Lemma NoDup_map_filter {A B : Type} (f : A -> B) (p : A -> bool) (l : list A) :
  List.NoDup (map f l) -> List.NoDup (map f (List.filter p l)).
Proof.
  induction l as [|a l IH]; simpl; intros Hnd; [constructor|].
  inversion Hnd as [|? ? Hnotin Hnd']; subst.
  destruct (p a); simpl; auto. constructor; auto.
  intros Hin. apply Hnotin. apply in_map_iff in Hin as (y & Hy & Hin).
  apply filter_In in Hin as [Hin _]. apply in_map_iff. eauto.
Qed.

Lemma delete_user_cascade_wf user_id db :
  db_wf db -> db_wf (delete_user_cascade user_id db).
Proof.
  intros [Hpk Hname Htok Hfk Hseq]. unfold delete_user_cascade.
  constructor; simpl; try now apply NoDup_map_filter.
  - intros s Hs. apply filter_In in Hs as [Hs Hne].
    destruct (Hfk s Hs) as (u & Hu & Hid). exists u. split; auto.
    apply filter_In. split; auto. now rewrite Hid.
  - intros u Hu. apply filter_In in Hu as [Hu _]. auto.
Qed.

Lemma insert_user_wf now username password_hash country role email full_name
      db db' r :
  db_wf db ->
  (forall u, In u (users db) -> u_username u <> username) ->
  insert_user now username password_hash country role email full_name db
  = (db', inr r) ->
  db_wf db' /\ users db' = (users db ++ [r])%list /\ sessions db' = sessions db.
Proof.
  intros [Hpk Hname Htok Hfk Hseq] Hfresh. unfold insert_user.
  destruct (existsb _ (users db)) eqn:Edup; [discriminate|].
  intros H. inversion H; subst; clear H. simpl.
  split; [|auto]. constructor; simpl.
  - rewrite map_app. simpl.
    apply NoDup_snoc; [exact Hpk|].
    intros Hin.
      apply in_map_iff in Hin as (u & Hid & Hu). specialize (Hseq u Hu). lia.
  - rewrite map_app. simpl.
    apply NoDup_snoc; [exact Hname|].
    intros Hin.
      apply in_map_iff in Hin as (u & Hn & Hu). exact (Hfresh u Hu Hn).
  - exact Htok.
  - intros s Hs. destruct (Hfk s Hs) as (u & Hu & Hid). exists u.
    split; auto. apply in_or_app. now left.
  - intros u Hu. apply in_app_or in Hu as [Hu|[<-|[]]]; simpl.
    + specialize (Hseq u Hu). lia.
    + lia.
Qed.

(** ** Login *)

Section Login.

Variable checkpw : string -> string -> string + bool.

Lemma authenticate_user_valid now username password country db u :
  db_wf db ->
  In u (users db) -> u_username u = username -> u_country u = country ->
  u_is_active u = true -> checkpw password (u_password_hash u) = inr true ->
  authenticate_user checkpw now username password country db =
  (update_last_login now (u_id_user u) db,
   inr (Some (mk_auth_user (u_id_user u) (u_username u) (u_password_hash u)
                (u_country u) (u_role u) (u_email u) (u_full_name u)
                (u_is_active u)))).
Proof.
  intros Hwf Hu Hname Hcountry Hact Hpw. unfold authenticate_user.
  rewrite (filter_key_unique u_username _ (users db) u).
  - simpl. now rewrite Hpw.
  - apply (wf_users_username db Hwf).
  - exact Hu.
  - rewrite Hact. simpl. apply andb_true_intro.
    split; [apply andb_true_intro; split|reflexivity]; now apply String.eqb_eq.
  - intros y _ Hy. apply andb_prop in Hy as [Hy _].
    apply andb_prop in Hy as [Hy _]. apply String.eqb_eq in Hy. congruence.
Qed.

Lemma authenticate_user_invalid now username password country db :
  login_failure checkpw db username password country ->
  authenticate_user checkpw now username password country db = (db, inr None).
Proof.
  intros Hfail. unfold authenticate_user.
  destruct (fetchone _) as [u|] eqn:Eu; [|reflexivity].
  apply fetchone_filter_some in Eu as [Hu Hp].
  apply andb_prop in Hp as [Hp Hact]. apply andb_prop in Hp as [Hname Hcountry].
  apply String.eqb_eq in Hname, Hcountry. apply Bool.eqb_prop in Hact.
  destruct Hfail as [H|H|H|H].
  - exfalso. exact (H u Hu Hname).
  - exfalso. exact (H u Hu Hname Hcountry).
  - rewrite (H u Hu Hname Hcountry) in Hact. discriminate.
  - now rewrite (H u Hu Hname Hcountry).
Qed.

(** When [bcrypt.checkpw] raises for the password and the hash of the
    active user of the tenant with that username, its [ValueError] leaves
    [authenticate_user] and then [login], which catch nothing. *)
Lemma authenticate_user_raises now username password country db u msg :
  db_wf db ->
  In u (users db) -> u_username u = username -> u_country u = country ->
  u_is_active u = true -> checkpw password (u_password_hash u) = inl msg ->
  authenticate_user checkpw now username password country db
  = (db, inl (ValueError msg)).
Proof.
  intros Hwf Hu Hname Hcountry Hact Hpw. unfold authenticate_user.
  rewrite (filter_key_unique u_username _ (users db) u).
  - simpl. now rewrite Hpw.
  - apply (wf_users_username db Hwf).
  - exact Hu.
  - rewrite Hact. simpl. apply andb_true_intro.
    split; [apply andb_true_intro; split|reflexivity]; now apply String.eqb_eq.
  - intros y _ Hy. apply andb_prop in Hy as [Hy _].
    apply andb_prop in Hy as [Hy _]. apply String.eqb_eq in Hy. congruence.
Qed.

Lemma login_raises env rand_token now request login_data db u msg :
  db_wf db ->
  In u (users db) -> u_username u = lr_username login_data ->
  u_country u = Py.getenv env "COUNTRY" "FRANCE" -> u_is_active u = true ->
  checkpw (lr_password login_data) (u_password_hash u) = inl msg ->
  login checkpw env rand_token now request login_data db
  = (db, inl (ValueError msg)).
Proof.
  intros Hwf Hu Hname Hcountry Hact Hpw. unfold login.
  apply (bind_inl _ _ _ _ _
           (authenticate_user_raises now _ _ _ db u msg Hwf Hu Hname Hcountry
                                     Hact Hpw)).
Qed.

(** The login of an active user of the tenant whose password verifies
    succeeds when the token drawn is fresh, and answers with the public view
    of that user. *)
Lemma login_valid env rand_token now request login_data db u :
  db_wf db ->
  In u (users db) -> u_username u = lr_username login_data ->
  u_country u = Py.getenv env "COUNTRY" "FRANCE" -> u_is_active u = true ->
  checkpw (lr_password login_data) (u_password_hash u) = inr true ->
  (forall s, In s (sessions db) -> s_token s <> rand_token) ->
  exists db',
    login checkpw env rand_token now request login_data db
    = (db', inr (mk_login_response
                   (mk_cookie "auth_token" rand_token true false "lax"
                              (24 * 60 * 60))
                   "Login successful"
                   (mk_user_summary (u_username u) (u_country u) (u_role u)
                                    (u_full_name u)))).
Proof.
  intros Hwf Hu Hname Hcountry Hact Hpw Hfresh.
  set (db1 := update_last_login now (u_id_user u) db).
  set (s := mk_session rand_token (u_id_user u)
              (now + timedelta_hours JWT_EXPIRE_HOURS) (client request)
              (Some match headers_get request "User-Agent" with
                    | Some a => a
                    | None => ""
                    end)).
  assert (Hu1 : In (set_last_login now u) (users db1))
    by now apply update_last_login_in.
  assert (Hins : exists db2, insert_session s db1 = (db2, inr tt)).
  { unfold insert_session.
    destruct (existsb _ (sessions db1)) eqn:Edup.
    - apply existsb_exists in Edup as (s' & Hs' & Ht').
      apply String.eqb_eq in Ht'. exfalso. exact (Hfresh s' Hs' Ht').
    - destruct (existsb _ (users db1)) eqn:Eown; simpl; [eauto|].
      assert (existsb (fun u0 => u_id_user u0 =? s_user_id s) (users db1) = true).
      { apply existsb_exists. exists (set_last_login now u). split; auto.
        simpl. apply Z.eqb_refl. }
      congruence. }
  destruct Hins as [db2 Hins]. exists db2.
  unfold login.
  rewrite (bind_inr _ _ _ _ _
             (authenticate_user_valid now _ _ _ db u Hwf Hu Hname Hcountry
                                      Hact Hpw)).
  simpl. unfold create_session.
  rewrite (bind_inr _ _ _ _ _ (bind_inr _ _ _ _ _ Hins)). reflexivity.
Qed.

(** As long as [bcrypt.checkpw] returns, a login that fails for a wrong
    tenant, an unknown username, an inactive user or a wrong password leaves
    the database as it was and raises one and the same value, the 401
    [InvalidCredentials]. *)
Lemma login_invalid_credentials :
  forall (env1 env2 : gmap string string) (rand_token1 rand_token2 : string)
         (now1 now2 : Z) (request1 request2 : Request)
         (login_data1 login_data2 : LoginRequest) (db : database),
    login_failure checkpw db (lr_username login_data1) (lr_password login_data1)
                  (Py.getenv env1 "COUNTRY" "FRANCE") ->
    login_failure checkpw db (lr_username login_data2) (lr_password login_data2)
                  (Py.getenv env2 "COUNTRY" "FRANCE") ->
    login checkpw env1 rand_token1 now1 request1 login_data1 db
    = (db, inl InvalidCredentials)
    /\ login checkpw env1 rand_token1 now1 request1 login_data1 db
       = login checkpw env2 rand_token2 now2 request2 login_data2 db.
Proof.
  intros env1 env2 rand_token1 rand_token2 now1 now2 request1 request2
         login_data1 login_data2 db H1 H2.
  assert (Hfail : forall env rand_token now request login_data,
             login_failure checkpw db (lr_username login_data)
                           (lr_password login_data)
                           (Py.getenv env "COUNTRY" "FRANCE") ->
             login checkpw env rand_token now request login_data db
             = (db, inl InvalidCredentials)).
  { intros env rand_token now request login_data H. unfold login.
    rewrite (bind_inr _ _ _ _ _ (authenticate_user_invalid now _ _ _ _ H)).
    reflexivity. }
  split; [now apply Hfail|]. rewrite !Hfail; auto.
Qed.

(** C3. On a database that satisfies the constraints of its schema, the
    login of an active user with the username, the password and the tenant
    of that user succeeds and hands out the fresh token in the cookie; as
    long as the 24 hours of the session have not elapsed, [verify_session]
    resolves that token to the username and the tenant given to [login]. *)
Theorem login_then_verify_session :
  forall (env : gmap string string) (rand_token : string) (now now' : Z)
         (request : Request) (login_data : LoginRequest) (db : database)
         (u : user_row),
    db_wf db ->
    In u (users db) ->
    u_username u = lr_username login_data ->
    u_country u = Py.getenv env "COUNTRY" "FRANCE" ->
    u_is_active u = true ->
    checkpw (lr_password login_data) (u_password_hash u) = inr true ->
    (forall s, In s (sessions db) -> s_token s <> rand_token) ->
    now' < now + timedelta_hours JWT_EXPIRE_HOURS ->
    exists db' resp r,
      login checkpw env rand_token now request login_data db = (db', inr resp)
      /\ cookie_key (login_set_cookie resp) = "auth_token"
      /\ cookie_value (login_set_cookie resp) = rand_token
      /\ verify_session rand_token now' db' = Some r
      /\ cu_username r = lr_username login_data
      /\ cu_country r = Py.getenv env "COUNTRY" "FRANCE"
      /\ cu_id_user r = u_id_user u.
Proof.
  intros env rand_token now now' request login_data db u
         Hwf Hu Hname Hcountry Hact Hpw Hfresh Hlive.
  set (db1 := update_last_login now (u_id_user u) db).
  set (s := mk_session rand_token (u_id_user u)
              (now + timedelta_hours JWT_EXPIRE_HOURS) (client request)
              (Some match headers_get request "User-Agent" with
                    | Some a => a
                    | None => ""
                    end)).
  assert (Hwf1 : db_wf db1) by now apply update_last_login_wf.
  assert (Hu1 : In (set_last_login now u) (users db1))
    by now apply update_last_login_in.
  assert (Hins : exists db2, insert_session s db1 = (db2, inr tt)).
  { unfold insert_session.
    destruct (existsb _ (sessions db1)) eqn:Edup.
    - apply existsb_exists in Edup as (s' & Hs' & Ht').
      apply String.eqb_eq in Ht'. exfalso. exact (Hfresh s' Hs' Ht').
    - destruct (existsb _ (users db1)) eqn:Eown; simpl; [eauto|].
      assert (existsb (fun u0 => u_id_user u0 =? s_user_id s) (users db1) = true).
      { apply existsb_exists. exists (set_last_login now u). split; auto.
        simpl. apply Z.eqb_refl. }
      congruence. }
  destruct Hins as [db2 Hins].
  destruct (insert_session_wf s db1 db2 Hwf1 Hins) as (Hwf2 & Husers2 & Hsess2).
  exists db2,
    (mk_login_response
       (mk_cookie "auth_token" rand_token true false "lax" (24 * 60 * 60))
       "Login successful"
       (mk_user_summary (u_username u) (u_country u) (u_role u) (u_full_name u))),
    (joined (set_last_login now u) s).
  split; [|split; [reflexivity|split; [reflexivity|split]]].
  - unfold login.
    rewrite (bind_inr _ _ _ _ _
               (authenticate_user_valid now _ _ _ db u Hwf Hu Hname Hcountry
                                        Hact Hpw)).
    simpl. unfold create_session.
    rewrite (bind_inr _ _ _ _ _ (bind_inr _ _ _ _ _ Hins)). reflexivity.
  - unfold verify_session.
    rewrite (session_join_known db2 rand_token now' s (set_last_login now u)
               Hwf2); auto.
    + simpl. apply Z.ltb_lt in Hlive. rewrite Hlive. simpl. now rewrite Hact.
    + rewrite Hsess2. apply in_or_app. right. now left.
    + now rewrite Husers2.
  - simpl. auto.
Qed.

End Login.

(** ** User administration *)

Lemma existsb_username db username :
  existsb (fun u => String.eqb (u_username u) username) (users db) = true <->
  exists u, In u (users db) /\ u_username u = username.
Proof.
  rewrite existsb_exists. split; intros (u & Hu & H); exists u; split; auto;
    now apply String.eqb_eq.
Qed.

(** C6. [create_user] raises the 400 [DuplicateUsername] exactly when some
    stored user, of whatever tenant, already has the requested username; the
    database is then unchanged.  When no stored user has it and bcrypt
    returns a hash of the password, the user is inserted with the requested
    username, tenant and role and that hash; when bcrypt raises instead,
    its [ValueError] is raised and nothing is inserted. *)
Theorem create_user_duplicate_username :
  forall (hashpw : string -> string -> string + string) (rand_salt : string)
         (now : Z) (username password country role : string)
         (email full_name : option string) (db : database),
    (snd (create_user hashpw rand_salt now username password country role
                      email full_name db) = inl DuplicateUsername <->
     exists u, In u (users db) /\ u_username u = username)
    /\ (forall u, In u (users db) -> u_username u = username ->
          create_user hashpw rand_salt now username password country role
                      email full_name db = (db, inl DuplicateUsername))
    /\ (db_wf db ->
        (forall u, In u (users db) -> u_username u <> username) ->
        forall password_hash,
          hashpw password rand_salt = inr password_hash ->
          exists db' r row,
            create_user hashpw rand_salt now username password country role
                        email full_name db = (db', inr r)
            /\ nu_username r = username /\ nu_country r = country
            /\ nu_role r = role
            /\ users db' = (users db ++ [row])%list
            /\ u_username row = username /\ u_country row = country
            /\ u_role row = role /\ u_id_user row = nu_id_user r
            /\ u_password_hash row = password_hash
            /\ db_wf db')
    /\ ((forall u, In u (users db) -> u_username u <> username) ->
        forall msg,
          hashpw password rand_salt = inl msg ->
          create_user hashpw rand_salt now username password country role
                      email full_name db = (db, inl (ValueError msg))).
Proof.
  intros hashpw rand_salt now username password country role email full_name db.
  assert (Hdup : forall u, In u (users db) -> u_username u = username ->
            create_user hashpw rand_salt now username password country role
                        email full_name db = (db, inl DuplicateUsername)).
  { intros u Hu Hname. unfold create_user.
    assert (E : existsb (fun u => String.eqb (u_username u) username) (users db)
                = true) by (apply existsb_username; eauto).
    now rewrite E. }
  assert (Hnodup : (forall u, In u (users db) -> u_username u <> username) ->
            existsb (fun u => String.eqb (u_username u) username) (users db)
            = false).
  { intros Hfresh. destruct (existsb _ (users db)) eqn:E; [|reflexivity].
    apply existsb_username in E as (u & Hu & Hname).
    exfalso. exact (Hfresh u Hu Hname). }
  split; [split|split; [|split]].
  - unfold create_user.
    destruct (existsb _ (users db)) eqn:E.
    + intros _. now apply existsb_username.
    + unfold hash_password, DuplicateUsername.
      destruct (hashpw password rand_salt) as [msg|h]; [discriminate|].
      unfold bind, ret.
      destruct (insert_user _ _ _ _ _ _ _ db) as [db' [e|row]] eqn:Eins; simpl;
        intros H; [|discriminate H].
      injection H as ->. unfold insert_user in Eins.
      destruct (existsb _ (users db)) in Eins; discriminate Eins.
  - intros (u & Hu & Hname). now rewrite (Hdup u Hu Hname).
  - exact Hdup.
  - intros Hwf Hfresh password_hash Hhash. unfold create_user, hash_password.
    rewrite (Hnodup Hfresh), Hhash.
    destruct (insert_user now username password_hash
                          country role email full_name db) as [db' [e|row]] eqn:Eins.
    + exfalso. unfold insert_user in Eins.
      destruct (existsb _ (users db)) eqn:Eid in Eins; [|discriminate].
      apply existsb_exists in Eid as (u & Hu & Hid). apply Z.eqb_eq in Hid.
      simpl in Hid. pose proof (wf_users_seq db Hwf u Hu). lia.
    + destruct (insert_user_wf _ _ _ _ _ _ _ _ _ _ Hwf Hfresh Eins)
        as (Hwf' & Husers & _).
      exists db', (mk_new_user (u_id_user row) (u_username row) (u_country row)
                     (u_role row) (u_email row) (u_full_name row)
                     (u_created_at row)), row.
      rewrite (bind_inr _ _ _ _ _ Eins). unfold ret.
      unfold insert_user in Eins.
      destruct (existsb _ (users db)) in Eins; [discriminate|].
      inversion Eins; subst; simpl.
      repeat (split; [reflexivity || assumption|]). assumption.
  - intros Hfresh msg Hmsg. unfold create_user, hash_password.
    now rewrite (Hnodup Hfresh), Hmsg.
Qed.

(** C4, as amended.  When user ids are unique, [delete_user] on a target
    whose role starts with [admin_] never deletes: it leaves the database
    unchanged and raises [ProtectedRole] when the target belongs to the
    tenant of the caller, [ForeignTenant] when it belongs to another one; a
    call of the endpoint on such a target fails as well and changes
    nothing, whoever the caller is. *)
Theorem delete_user_admin_target :
  forall (db : database) (user_id : Z) (admin_country : string) (u : user_row),
    List.NoDup (map u_id_user (users db)) ->
    In u (users db) -> u_id_user u = user_id ->
    Py.startswith (u_role u) "admin_" = true ->
    delete_user user_id admin_country db =
      (db, inl (if String.eqb (u_country u) admin_country
                then ProtectedRole else ForeignTenant))
    /\ forall env now request,
        exists e, delete_user_endpoint env now user_id request db = (db, inl e).
Proof.
  intros db user_id admin_country u Hpk Hu Hid Hadmin.
  assert (Hsel : fetchone (List.filter (fun u0 => u_id_user u0 =? user_id)
                                       (users db)) = Some u).
  { rewrite (filter_key_unique u_id_user _ (users db) u); auto.
    - now apply Z.eqb_eq.
    - intros y _ Hy. apply Z.eqb_eq in Hy. congruence. }
  assert (Hdel : forall c, delete_user user_id c db =
                           (db, inl (if String.eqb (u_country u) c
                                     then ProtectedRole else ForeignTenant))).
  { intros c. unfold delete_user. rewrite Hsel.
    destruct (String.eqb (u_country u) c); simpl; [|reflexivity].
    now rewrite Hadmin. }
  split; [apply Hdel|].
  intros env now request. unfold delete_user_endpoint, bind, require_auth.
  destruct (get_current_user request now db) as [cu|]; [|eauto].
  unfold lift. destruct (require_country env request cu) as [e|cu']; [eauto|].
  destruct (negb _); [unfold raise; eauto|].
  rewrite Hdel. destruct (String.eqb _ _); unfold ProtectedRole, ForeignTenant; eauto.
Qed.

Lemma existsb_role (role : string) (valid_roles : list string) :
  existsb (String.eqb role) valid_roles = true <-> In role valid_roles.
Proof.
  rewrite existsb_exists. split.
  - intros (x & Hx & E). apply String.eqb_eq in E. now subst.
  - intros H. exists role. split; auto. apply String.eqb_refl.
Qed.

(** C5, as amended.  For a caller who is an admin of the tenant of the
    instance, [create_new_user] raises the 400 [InvalidRole] exactly when
    the requested role is none of [chercheur_<tenant>] and [admin_<tenant>],
    for the caller's own tenant lowered by [str.lower], and then changes
    nothing; every user it creates has the tenant of the caller and one of
    these two roles, so the tenant suffix of the role is the tenant of the
    user. *)
Theorem create_new_user_role_validation :
  forall (hashpw : string -> string -> string + string)
         (str_lower : string -> string) (env : gmap string string)
         (rand_salt : string) (now : Z) (request : Request)
         (user_data : CreateUserRequest) (db : database)
         (current_user : session_user),
    get_current_user request now db = Some current_user ->
    cu_country current_user = Py.getenv env "COUNTRY" "FRANCE" ->
    Py.startswith (cu_role current_user) "admin_" = true ->
    let country := cu_country current_user in
    let valid_roles := [String.append "chercheur_" (str_lower country);
                        String.append "admin_" (str_lower country)] in
    (snd (create_new_user hashpw str_lower env rand_salt now request user_data db)
     = inl (InvalidRole country valid_roles) <->
     ~ In (cr_role user_data) valid_roles)
    /\ (~ In (cr_role user_data) valid_roles ->
        create_new_user hashpw str_lower env rand_salt now request user_data db
        = (db, inl (InvalidRole country valid_roles)))
    /\ (forall db' resp,
           create_new_user hashpw str_lower env rand_salt now request user_data db
           = (db', inr resp) ->
           In (cr_role user_data) valid_roles
           /\ nu_country (create_user_row resp) = country
           /\ nu_role (create_user_row resp) = cr_role user_data
           /\ (nu_role (create_user_row resp)
               = String.append "chercheur_"
                   (str_lower (nu_country (create_user_row resp)))
               \/ nu_role (create_user_row resp)
                  = String.append "admin_"
                      (str_lower (nu_country (create_user_row resp))))).
Proof.
  intros hashpw str_lower env rand_salt now request user_data db current_user
         Hcur Hcountry Hadmin country valid_roles.
  assert (Hstep : create_new_user hashpw str_lower env rand_salt now request user_data db =
    if negb (existsb (String.eqb (cr_role user_data)) valid_roles) then
      (db, inl (InvalidRole country valid_roles))
    else
      match create_user hashpw rand_salt now (cr_username user_data)
                        (cr_password user_data) country (cr_role user_data)
                        (cr_email user_data) (cr_full_name user_data) db with
      | (db', inr new_user) =>
          (db', inr (mk_create_response "User created successfully" new_user))
      | (db', inl (HTTPException c d h)) => (db', inl (HTTPException c d h))
      | (db', inl (DatabaseError e)) =>
          (db', inl (HTTPException 500 [Lit "Error creating user: "; FmtExn e] []))
      | (db', inl (ValueError msg)) =>
          (db', inl (HTTPException 500 [Lit "Error creating user: "; Fmt msg] []))
      end).
  { unfold create_new_user.
    rewrite (bind_inr _ _ _ _ _ (require_auth_some _ _ _ _ Hcur)).
    rewrite (bind_inr _ _ db db current_user);
      [|unfold lift; now rewrite require_country_match].
    rewrite Hadmin. cbn [negb]. fold country. fold valid_roles.
    destruct (existsb _ valid_roles); reflexivity. }
  rewrite Hstep. clear Hstep.
  destruct (existsb (String.eqb (cr_role user_data)) valid_roles) eqn:Ev; simpl.
  - apply existsb_role in Ev.
    assert (Hcreate : forall r db1,
               create_user hashpw rand_salt now (cr_username user_data)
                 (cr_password user_data) country (cr_role user_data)
                 (cr_email user_data) (cr_full_name user_data) db = (db1, inr r) ->
               nu_country r = country /\ nu_role r = cr_role user_data).
    { intros r db1. unfold create_user.
      destruct (existsb _ (users db)); [discriminate|].
      destruct (hash_password _ _ _); [discriminate|].
      unfold bind, insert_user, ret.
      destruct (existsb _ (users db)); [discriminate|].
      intros H. inversion H. simpl. auto. }
    destruct (create_user _ _ _ _ _ _ _ _ _ db) as [db1 [[c d h|e|msg]|r]] eqn:Ec;
      simpl.
    + split; [|split]; [split| |]; try tauto; [|discriminate].
      unfold create_user in Ec.
      destruct (existsb _ (users db)) in Ec.
      * inversion Ec. unfold InvalidRole. discriminate.
      * destruct (hash_password _ _ _) in Ec; [discriminate|].
        unfold bind, insert_user, ret in Ec.
        destruct (existsb _ (users db)) in Ec; discriminate.
    + split; [|split]; [split| |]; try tauto; [|discriminate].
      unfold InvalidRole. discriminate.
    + split; [|split]; [split| |]; try tauto; [|discriminate].
      unfold InvalidRole. discriminate.
    + destruct (Hcreate r db1 eq_refl) as [Hc Hr].
      split; [|split]; [split| |]; try tauto; [discriminate|].
      intros db' resp H. inversion H; subst. simpl.
      rewrite Hc, Hr. repeat split; auto.
      destruct Ev as [<-|[<-|[]]]; auto.
  - assert (Hnot : ~ In (cr_role user_data) valid_roles).
    { intros Hin. apply existsb_role in Hin. congruence. }
    split; [|split]; [split| |]; auto. discriminate.
Qed.

(** ** Token transport *)

Lemma append_String (a : ascii) (p rest : string) :
  String.append (String a p) rest = String a (String.append p rest).
Proof. reflexivity. Qed.

Lemma append_Empty (rest : string) : String.append "" rest = rest.
Proof. reflexivity. Qed.

Lemma startswith_append (s p : string) :
  Py.startswith s p = true <-> exists rest, s = String.append p rest.
Proof.
  unfold Py.startswith. revert s.
  induction p as [|a p IH]; intros s; simpl.
  - destruct s; split; eauto.
  - destruct s as [|b s]; simpl.
    + split; [discriminate|]. intros (rest & H).
      rewrite append_String in H. discriminate.
    + destruct (ascii_dec a b) as [->|Hne].
      * rewrite IH. split; intros (rest & H); exists rest;
          rewrite append_String in *; congruence.
      * split; [discriminate|]. intros (rest & H).
        rewrite append_String in H. congruence.
Qed.

Lemma split_not_nil (sep : ascii) (s : string) :
  exists w ws, Py.split sep s = w :: ws.
Proof.
  destruct s as [|c s]; simpl; eauto.
  destruct (Ascii.eqb c sep); eauto.
  destruct (Py.split sep s); eauto.
Qed.

(** The index [1] of [auth_header.split(' ')] is in range for a bearer
    header, and holds what follows ["Bearer "] up to the next space. *)
Lemma split_bearer (rest : string) :
  nth_error (Py.split " " (String.append "Bearer " rest)) 1
  = Some (hd "" (Py.split " " rest)).
Proof.
  rewrite !append_String, append_Empty. simpl.
  destruct (split_not_nil " " rest) as (w & ws & ->). reflexivity.
Qed.

Lemma truthy_some (c : string) : c <> "" -> Py.truthy (Some c) = true.
Proof. intros H. simpl. apply String.eqb_neq in H. now rewrite H. Qed.

(** C8, as amended.  A cookie [auth_token] with a non-empty value decides
    the identification, whatever the [Authorization] header is.  When the
    cookie is absent or empty, a header that starts with ["Bearer "] is
    used: its token is the text after that prefix up to the next space.
    Without such a header nobody is identified. *)
Theorem get_current_user_token_precedence :
  forall (request : Request) (now : Z) (db : database),
    (forall c, cookies request !! "auth_token" = Some c -> c <> "" ->
       get_current_user request now db = verify_session c now db)
    /\ (Py.truthy (cookies request !! "auth_token") = false ->
        (forall rest,
            headers_get request "Authorization"
            = Some (String.append "Bearer " rest) ->
            get_current_user request now db =
            if String.eqb (hd "" (Py.split " " rest)) ""
            then None
            else verify_session (hd "" (Py.split " " rest)) now db)
        /\ (forall h,
               headers_get request "Authorization" = Some h ->
               Py.startswith h "Bearer " = false ->
               get_current_user request now db = None)
        /\ (headers_get request "Authorization" = None ->
            get_current_user request now db = None)).
Proof.
  intros request now db. split.
  - intros c Hc Hne. unfold get_current_user. rewrite Hc.
    rewrite (truthy_some c Hne). cbn [negb].
    now rewrite (truthy_some c Hne).
  - intros Hfalsy. unfold get_current_user. rewrite Hfalsy.
    cbn [negb]. repeat split.
    + intros rest ->.
      assert (Hsw : Py.startswith (String.append "Bearer " rest) "Bearer " = true)
        by (apply startswith_append; eauto).
      rewrite Hsw, andb_true_r. cbn [Py.truthy]. rewrite split_bearer.
      rewrite append_String. cbn [String.eqb negb Py.truthy].
      now destruct (String.eqb _ "").
    + intros h -> Hsw. rewrite Hsw, andb_false_r.
      destruct (cookies request !! "auth_token"); [|reflexivity].
      now rewrite Hfalsy.
    + intros ->. destruct (cookies request !! "auth_token"); [|reflexivity].
      now rewrite Hfalsy.
Qed.

(** ** Logout *)

Lemma logout_succeeds request db :
  exists db', logout request db
              = (db', inr (mk_logout_response "auth_token" "Logout successful"))
              /\ users db' = users db.
Proof.
  unfold logout, bind.
  destruct (cookies request !! "auth_token") as [t|]; [|simpl; eauto].
  destruct (Py.truthy (Some t)); simpl; eauto.
Qed.

Lemma logout_cookie request db c :
  cookies request !! "auth_token" = Some c -> c <> "" ->
  logout request db =
  (fst (delete_session c db),
   inr (mk_logout_response "auth_token" "Logout successful")).
Proof.
  intros Hc Hne. unfold logout. rewrite Hc, (truthy_some c Hne). reflexivity.
Qed.

Lemma delete_session_revokes token now db :
  verify_session token now (fst (delete_session token db)) = None.
Proof.
  unfold verify_session. rewrite session_join_unknown; [reflexivity|].
  simpl. intros s Hs. apply filter_In in Hs as [_ Hs].
  apply String.eqb_neq. now destruct (String.eqb (s_token s) token).
Qed.

Lemma filter_idem {A : Type} (p : A -> bool) (l : list A) :
  List.filter p (List.filter p l) = List.filter p l.
Proof.
  induction l as [|a l IH]; simpl; [reflexivity|].
  destruct (p a) eqn:E; simpl; [rewrite E; f_equal|]; exact IH.
Qed.

Lemma logout_idempotent request db :
  fst (logout request (fst (logout request db))) = fst (logout request db).
Proof.
  unfold logout, bind.
  destruct (cookies request !! "auth_token") as [t|]; [|reflexivity].
  destruct (Py.truthy (Some t)); [|reflexivity].
  simpl. unfold with_sessions. simpl. now rewrite filter_idem.
Qed.

(** C9.  A client identified by the header [Authorization: Bearer tok-alice]
    and no cookie is the current user of its request; [logout] answers
    ["Logout successful"], yet deletes nothing, and the token identifies the
    same user after the logout. *)
Theorem logout_ignores_bearer_token :
  let request := Sample.req None (Some "Bearer tok-alice") in
  get_current_user request 5 Sample.db0
  = Some (joined Sample.alice Sample.sess_alice)
  /\ logout request Sample.db0
     = (Sample.db0, inr (mk_logout_response "auth_token" "Logout successful"))
  /\ get_current_user request 5 (fst (logout request Sample.db0))
     = Some (joined Sample.alice Sample.sess_alice).
Proof. vm_compute. auto. Qed.

(** ** The properties on the sample data *)

Lemma db0_wf : db_wf Sample.db0.
Proof.
  constructor; simpl.
  - repeat constructor; simpl; intuition discriminate.
  - repeat constructor; simpl; intuition discriminate.
  - repeat constructor; simpl; intuition discriminate.
  - intros s [<-|[<-|[<-|[<-|[]]]]]; simpl;
      [ exists Sample.alice | exists Sample.root_fr
      | exists Sample.bob | exists Sample.root_us ]; simpl; tauto.
  - intros u [<-|[<-|[<-|[<-|[]]]]]; simpl; lia.
Qed.

(** An admin of USA with a live session is turned away by the instance of
    FRANCE. *)
Lemma require_country_fails_closed_witness :
  get_current_user_info Sample.env_fr 5 (Sample.req (Some "tok-root-us") None)
                        Sample.db0
  = (Sample.db0, inl (TenantMismatch "FRANCE" "USA")).
Proof.
  destruct (require_country_fails_closed Sample.env_fr
              (Sample.req (Some "tok-root-us") None)
              (joined Sample.root_us Sample.sess_root_us)) as [_ H].
  destruct H as [_ H]; [vm_compute; discriminate|].
  destruct (H 5 Sample.db0) as [H1 _]; [vm_compute; reflexivity|].
  exact H1.
Defined.

(** C2.  The login is not uniform where bcrypt raises.  When
    [bcrypt.checkpw] raises for the password given and the stored hash of an
    active user of the tenant of the instance (a password of more than 72
    bytes with bcrypt 5, a stored hash that is no bcrypt hash), the login of
    that user lets the [ValueError] through and leaves the database as it
    was, whereas every login that fails for an unknown username, a wrong
    tenant, an inactive user or a wrong password raises the 401
    [InvalidCredentials]: the two answers differ, and tell an active user of
    the tenant from everyone else. *)
Theorem login_bcrypt_error_tells_users_apart :
  forall (checkpw : string -> string -> string + bool)
         (env : gmap string string) (rand_token : string) (now : Z)
         (request : Request) (login_data : LoginRequest) (db : database)
         (u : user_row) (msg : string),
    db_wf db ->
    In u (users db) ->
    u_username u = lr_username login_data ->
    u_country u = Py.getenv env "COUNTRY" "FRANCE" ->
    u_is_active u = true ->
    checkpw (lr_password login_data) (u_password_hash u) = inl msg ->
    login checkpw env rand_token now request login_data db
    = (db, inl (ValueError msg))
    /\ forall (env' : gmap string string) (rand_token' : string) (now' : Z)
              (request' : Request) (login_data' : LoginRequest),
        login_failure checkpw db (lr_username login_data')
                      (lr_password login_data')
                      (Py.getenv env' "COUNTRY" "FRANCE") ->
        login checkpw env' rand_token' now' request' login_data' db
        = (db, inl InvalidCredentials)
        /\ login checkpw env rand_token now request login_data db
           <> login checkpw env' rand_token' now' request' login_data' db.
Proof.
  intros checkpw env rand_token now request login_data db u msg
         Hwf Hu Hname Hcountry Hact Hpw.
  pose proof (login_raises checkpw env rand_token now request login_data db u
                msg Hwf Hu Hname Hcountry Hact Hpw) as Hraise.
  split; [exact Hraise|].
  intros env' rand_token' now' request' login_data' Hfail.
  destruct (login_invalid_credentials checkpw env' env' rand_token' rand_token'
              now' now' request' request' login_data' login_data' db Hfail
              Hfail) as [H401 _].
  split; [exact H401|].
  rewrite Hraise, H401. unfold InvalidCredentials. intros H. inversion H.
Qed.

(** With a wrong password of 73 bytes, the login of alice, an active user
    of FRANCE, on the instance of FRANCE raises the [ValueError] of bcrypt;
    the same password for an unknown username, for alice on the instance of
    USA and for the inactive bob raises the 401. *)
Lemma login_bcrypt_error_tells_users_apart_witness :
  login Sample.checkpw Sample.env_fr "T" 5 (Sample.req None None)
        (mk_login_request "alice" Sample.long_password) Sample.db0
  = (Sample.db0, inl (ValueError Sample.too_long))
  /\ login Sample.checkpw Sample.env_fr "T" 5 (Sample.req None None)
           (mk_login_request "nobody" Sample.long_password) Sample.db0
     = (Sample.db0, inl InvalidCredentials)
  /\ login Sample.checkpw Sample.env_us "T" 5 (Sample.req None None)
           (mk_login_request "alice" Sample.long_password) Sample.db0
     = (Sample.db0, inl InvalidCredentials)
  /\ login Sample.checkpw Sample.env_fr "T" 5 (Sample.req None None)
           (mk_login_request "bob" Sample.long_password) Sample.db0
     = (Sample.db0, inl InvalidCredentials)
  /\ login Sample.checkpw Sample.env_fr "T" 5 (Sample.req None None)
           (mk_login_request "alice" Sample.long_password) Sample.db0
     <> login Sample.checkpw Sample.env_fr "T" 5 (Sample.req None None)
              (mk_login_request "nobody" Sample.long_password) Sample.db0.
Proof.
  destruct (login_bcrypt_error_tells_users_apart Sample.checkpw Sample.env_fr
              "T" 5 (Sample.req None None)
              (mk_login_request "alice" Sample.long_password) Sample.db0
              Sample.alice Sample.too_long db0_wf)
    as [Hraise Hrest].
  - simpl. tauto.
  - reflexivity.
  - vm_compute. reflexivity.
  - reflexivity.
  - vm_compute. reflexivity.
  - split; [exact Hraise|].
    destruct (Hrest Sample.env_fr "T" 5 (Sample.req None None)
                (mk_login_request "nobody" Sample.long_password))
      as [Hnobody Hdiff].
    { apply unknown_username. simpl.
      intros u [<-|[<-|[<-|[<-|[]]]]]; simpl; discriminate. }
    destruct (Hrest Sample.env_us "T" 5 (Sample.req None None)
                (mk_login_request "alice" Sample.long_password))
      as [Htenant _].
    { apply wrong_tenant. simpl.
      intros u [<-|[<-|[<-|[<-|[]]]]]; simpl; intros Hn; try discriminate;
        vm_compute; discriminate. }
    destruct (Hrest Sample.env_fr "T" 5 (Sample.req None None)
                (mk_login_request "bob" Sample.long_password))
      as [Hbob _].
    { apply inactive_user. simpl.
      intros u [<-|[<-|[<-|[<-|[]]]]]; simpl; intros Hn; try discriminate.
      reflexivity. }
    auto.
Defined.

(** C10. With [COUNTRY] unset the tenant of the instance is ['FRANCE']:
    [require_country] admits exactly the users of FRANCE, and [login] is the
    login of an instance configured for FRANCE: an active user of FRANCE
    whose password verifies logs in, a username held only by users of other
    tenants gets the 401, and every success is a user of FRANCE. *)
Theorem unset_country_defaults_to_france :
  forall (env : gmap string string),
    env !! "COUNTRY" = None ->
    Py.getenv env "COUNTRY" "FRANCE" = "FRANCE"
    /\ (forall request user,
           require_country env request user = inr user <->
           cu_country user = "FRANCE")
    /\ (forall checkpw rand_token now request login_data db,
           login checkpw env rand_token now request login_data db =
           login checkpw (<["COUNTRY" := "FRANCE"]> env) rand_token now request
                 login_data db
           /\ (snd (authenticate_user checkpw now (lr_username login_data)
                      (lr_password login_data) "FRANCE" db) = inr None ->
               login checkpw env rand_token now request login_data db =
               (db, inl InvalidCredentials))
           /\ (forall db' resp,
                  login checkpw env rand_token now request login_data db =
                  (db', inr resp) ->
                  us_country (login_user resp) = "FRANCE")
           /\ (forall u,
                  db_wf db ->
                  In u (users db) ->
                  u_username u = lr_username login_data ->
                  u_country u = "FRANCE" ->
                  u_is_active u = true ->
                  checkpw (lr_password login_data) (u_password_hash u)
                  = inr true ->
                  (forall s, In s (sessions db) -> s_token s <> rand_token) ->
                  exists db',
                    login checkpw env rand_token now request login_data db
                    = (db', inr (mk_login_response
                                   (mk_cookie "auth_token" rand_token true
                                              false "lax" (24 * 60 * 60))
                                   "Login successful"
                                   (mk_user_summary (u_username u) "FRANCE"
                                                    (u_role u)
                                                    (u_full_name u)))))
           /\ ((forall u, In u (users db) ->
                          u_username u = lr_username login_data ->
                          u_country u <> "FRANCE") ->
               login checkpw env rand_token now request login_data db =
               (db, inl InvalidCredentials))).
Proof.
  intros env Hunset.
  assert (Hc : Py.getenv env "COUNTRY" "FRANCE" = "FRANCE").
  { unfold Py.getenv. now rewrite Hunset. }
  split; [exact Hc|]. split.
  - intros request user.
    pose proof (require_country_iff env request user) as H.
    now rewrite Hc in H.
  - intros checkpw rand_token now request login_data db.
    split; [|split; [|split; [|split]]].
    + unfold login. rewrite Hc.
      assert (Hc' : Py.getenv (<["COUNTRY" := "FRANCE"]> env) "COUNTRY" "FRANCE"
                    = "FRANCE").
      { unfold Py.getenv. now rewrite lookup_insert_eq. }
      now rewrite Hc'.
    + unfold login. rewrite Hc. intros Hnone. unfold bind.
      destruct (authenticate_user checkpw now (lr_username login_data)
                  (lr_password login_data) "FRANCE" db) as [db1 r] eqn:E.
      simpl in Hnone. subst r.
      unfold authenticate_user in E.
      destruct (fetchone _) as [u|] in E; [|now inversion E].
      destruct (checkpw _ _) as [msg|[|]] in E; inversion E. reflexivity.
    + unfold login. rewrite Hc. intros db' resp. unfold bind.
      unfold authenticate_user.
      destruct (fetchone _) as [u|] eqn:Eu; [|discriminate].
      apply fetchone_filter_some in Eu as [_ Hp].
      apply andb_prop in Hp as [Hp _]. apply andb_prop in Hp as [_ Hp].
      apply String.eqb_eq in Hp.
      destruct (checkpw _ _) as [msg|[|]]; [discriminate| |discriminate].
      unfold create_session, bind.
      destruct (insert_session _ _) as [db2 [e|[]]]; [discriminate|].
      unfold ret. intros H. inversion H. simpl. exact Hp.
    + intros u Hwf Hu Hname Hcountry Hact Hpw Hfresh.
      rewrite <- Hc in Hcountry.
      destruct (login_valid checkpw env rand_token now request login_data db u
                  Hwf Hu Hname Hcountry Hact Hpw Hfresh) as [db' Hlogin].
      exists db'. rewrite Hlogin. rewrite Hcountry, Hc. reflexivity.
    + intros Hother.
      destruct (login_invalid_credentials checkpw env env rand_token rand_token
                  now now request request login_data login_data db) as [H _];
        [| |exact H]; apply wrong_tenant; rewrite Hc; exact Hother.
Qed.

(** On an instance without [COUNTRY], alice of FRANCE logs in and the
    admin of USA, with the right password, gets the 401. *)
Lemma unset_country_defaults_to_france_witness :
  Py.getenv (∅ : gmap string string) "COUNTRY" "FRANCE" = "FRANCE"
  /\ (exists db',
         login Sample.checkpw ∅ "T" 5 (Sample.req None None)
               (mk_login_request "alice" "correct-pw") Sample.db0
         = (db', inr (mk_login_response
                        (mk_cookie "auth_token" "T" true false "lax"
                                   (24 * 60 * 60))
                        "Login successful"
                        (mk_user_summary "alice" "FRANCE" "chercheur_france"
                                         (Some "Alice")))))
  /\ login Sample.checkpw ∅ "T" 5 (Sample.req None None)
           (mk_login_request "root_us" "admin-pw") Sample.db0
     = (Sample.db0, inl InvalidCredentials).
Proof.
  assert (Hunset : (∅ : gmap string string) !! "COUNTRY" = None)
    by (vm_compute; reflexivity).
  destruct (unset_country_defaults_to_france ∅ Hunset) as (Hc & _ & Hlogin).
  split; [exact Hc|]. split.
  - destruct (Hlogin Sample.checkpw "T" 5 (Sample.req None None)
                (mk_login_request "alice" "correct-pw") Sample.db0)
      as (_ & _ & _ & Hok & _).
    apply (Hok Sample.alice db0_wf).
    + simpl. tauto.
    + reflexivity.
    + reflexivity.
    + reflexivity.
    + vm_compute. reflexivity.
    + simpl. intros s [<-|[<-|[<-|[<-|[]]]]]; simpl; discriminate.
  - destruct (Hlogin Sample.checkpw "T" 5 (Sample.req None None)
                (mk_login_request "root_us" "admin-pw") Sample.db0)
      as (_ & _ & _ & _ & Hno).
    apply Hno. simpl.
    intros u [<-|[<-|[<-|[<-|[]]]]]; simpl; intros Hn; discriminate.
Defined.

Lemma login_then_verify_session_witness :
  exists db' resp r,
    login Sample.checkpw Sample.env_fr "T" 5 (Sample.req None None)
          (mk_login_request "alice" "correct-pw") Sample.db0 = (db', inr resp)
    /\ cookie_key (login_set_cookie resp) = "auth_token"
    /\ cookie_value (login_set_cookie resp) = "T"
    /\ verify_session "T" 6 db' = Some r
    /\ cu_username r = "alice"
    /\ cu_country r = "FRANCE"
    /\ cu_id_user r = 1.
Proof.
  apply (login_then_verify_session Sample.checkpw Sample.env_fr "T" 5 6
           (Sample.req None None) (mk_login_request "alice" "correct-pw")
           Sample.db0 Sample.alice).
  - exact db0_wf.
  - simpl. tauto.
  - reflexivity.
  - vm_compute. reflexivity.
  - reflexivity.
  - vm_compute. reflexivity.
  - simpl. intros s [<-|[<-|[<-|[<-|[]]]]]; simpl; discriminate.
  - vm_compute. reflexivity.
Defined.

(** C4, as stated, fails: an admin of FRANCE who deletes the admin of USA
    gets [ForeignTenant], not [ProtectedRole]. *)
Lemma delete_user_foreign_admin_counterexample :
  In Sample.root_us (users Sample.db0)
  /\ Py.startswith (u_role Sample.root_us) "admin_" = true
  /\ delete_user 3 "FRANCE" Sample.db0 = (Sample.db0, inl ForeignTenant)
  /\ delete_user 3 "FRANCE" Sample.db0 <> (Sample.db0, inl ProtectedRole).
Proof.
  split; [simpl; tauto|]. split; [reflexivity|]. split; [reflexivity|].
  vm_compute. discriminate.
Qed.

Lemma delete_user_admin_target_witness :
  delete_user 2 "FRANCE" Sample.db0 = (Sample.db0, inl ProtectedRole)
  /\ delete_user 2 "USA" Sample.db0 = (Sample.db0, inl ForeignTenant).
Proof.
  split.
  - apply (delete_user_admin_target Sample.db0 2 "FRANCE" Sample.root_fr).
    + exact (wf_users_pk _ db0_wf).
    + simpl. tauto.
    + reflexivity.
    + reflexivity.
  - apply (delete_user_admin_target Sample.db0 2 "USA" Sample.root_fr).
    + exact (wf_users_pk _ db0_wf).
    + simpl. tauto.
    + reflexivity.
    + reflexivity.
Defined.

(** C5, as stated, fails: the admin of FRANCE creates a user with the role
    [chercheur_france], which is neither [researcher_france] nor
    [admin_france], and is refused the role [researcher_france]. *)
Lemma create_new_user_researcher_counterexample :
  ~ In "chercheur_france" ["researcher_france"; "admin_france"]
  /\ (exists db' resp,
         create_new_user Sample.hashpw Py.ascii_lower Sample.env_fr "salt" 7
           (Sample.req (Some "tok-root-fr") None)
           (mk_create_user_request "carol" "pw" "chercheur_france" None None)
           Sample.db0 = (db', inr resp)
         /\ nu_role (create_user_row resp) = "chercheur_france")
  /\ create_new_user Sample.hashpw Py.ascii_lower Sample.env_fr "salt" 7
       (Sample.req (Some "tok-root-fr") None)
       (mk_create_user_request "carol" "pw" "researcher_france" None None)
       Sample.db0
     = (Sample.db0,
        inl (InvalidRole "FRANCE" ["chercheur_france"; "admin_france"])).
Proof.
  split; [simpl; intuition discriminate|]. split.
  - eexists _, _. split; vm_compute; reflexivity.
  - vm_compute. reflexivity.
Qed.

(** The admin of FRANCE is refused the role [admin_switzerland]. *)
Lemma create_new_user_role_validation_witness :
  create_new_user Sample.hashpw Py.ascii_lower Sample.env_fr "salt" 7
    (Sample.req (Some "tok-root-fr") None)
    (mk_create_user_request "carol" "pw" "admin_switzerland" None None)
    Sample.db0
  = (Sample.db0, inl (InvalidRole "FRANCE" ["chercheur_france"; "admin_france"])).
Proof.
  apply (create_new_user_role_validation Sample.hashpw Py.ascii_lower
           Sample.env_fr "salt" 7
           (Sample.req (Some "tok-root-fr") None)
           (mk_create_user_request "carol" "pw" "admin_switzerland" None None)
           Sample.db0 (joined Sample.root_fr Sample.sess_root_fr)).
  - vm_compute. reflexivity.
  - vm_compute. reflexivity.
  - reflexivity.
  - vm_compute. intuition discriminate.
Defined.

(** The username of alice, a user of FRANCE, is refused to a user of USA. *)
Lemma create_user_duplicate_username_witness :
  create_user Sample.hashpw "salt" 7 "alice" "pw" "USA" "chercheur_usa"
              None None Sample.db0
  = (Sample.db0, inl DuplicateUsername).
Proof.
  apply (create_user_duplicate_username Sample.hashpw "salt" 7 "alice" "pw"
           "USA" "chercheur_usa" None None Sample.db0) with (u := Sample.alice).
  - simpl. tauto.
  - reflexivity.
Defined.

(** The token of alice resolves to the identity of alice; the token of
    bob, who is inactive, resolves to nobody. *)
Lemma verify_session_resolves_witness :
  verify_session "tok-alice" 5 Sample.db0
  = Some (mk_session_user 1 "alice" "FRANCE" "chercheur_france" true 1000)
  /\ verify_session "tok-bob" 5 Sample.db0 = None.
Proof.
  destruct (verify_session_resolves Sample.db0 "tok-alice" 5 db0_wf)
    as (_ & Hsome & _).
  destruct (verify_session_resolves Sample.db0 "tok-bob" 5 db0_wf)
    as (Hnone & _).
  split.
  - apply (Hsome Sample.sess_alice Sample.alice); simpl; auto; lia.
  - apply Hnone.
    right. right. exists Sample.sess_bob, Sample.bob. simpl. tauto.
Defined.

(** C8, as stated, fails: with an empty cookie and a bearer header, the
    request carries both, and the token of the header identifies alice,
    where the token of the cookie identifies nobody. *)
Lemma get_current_user_empty_cookie_counterexample :
  let request := Sample.req (Some "") (Some "Bearer tok-alice") in
  cookies request !! "auth_token" = Some ""
  /\ headers_get request "Authorization" = Some "Bearer tok-alice"
  /\ get_current_user request 5 Sample.db0
     = verify_session "tok-alice" 5 Sample.db0
  /\ get_current_user request 5 Sample.db0
     <> verify_session "" 5 Sample.db0.
Proof.
  repeat split; try (vm_compute; reflexivity). vm_compute. discriminate.
Qed.

(** With the token of an admin in the cookie and the token of alice in the
    header, the admin is identified. *)
Lemma get_current_user_token_precedence_witness :
  get_current_user (Sample.req (Some "tok-root-fr") (Some "Bearer tok-alice"))
                   5 Sample.db0
  = verify_session "tok-root-fr" 5 Sample.db0.
Proof.
  apply (get_current_user_token_precedence
           (Sample.req (Some "tok-root-fr") (Some "Bearer tok-alice"))
           5 Sample.db0).
  - vm_compute. reflexivity.
  - discriminate.
Defined.

(** * Further properties of the code *)

(** ** Inserting a session, touching the last login *)

Lemma insert_session_inr r db db' :
  insert_session r db = (db', inr tt) ->
  db' = with_sessions db (sessions db ++ [r])
  /\ (forall s, In s (sessions db) -> s_token s <> s_token r)
  /\ (exists u, In u (users db) /\ u_id_user u = s_user_id r).
Proof.
  unfold insert_session.
  destruct (existsb _ (sessions db)) eqn:Edup; [discriminate|].
  destruct (existsb _ (users db)) eqn:Eown; [|discriminate].
  simpl. intros H. inversion H. split; [reflexivity|]. split.
  - intros s Hs Ht.
    assert (existsb (fun s0 => String.eqb (s_token s0) (s_token r)) (sessions db)
            = true).
    { apply existsb_exists. exists s. split; auto. now apply String.eqb_eq. }
    congruence.
  - apply existsb_exists in Eown as (u & Hu & Hid). apply Z.eqb_eq in Hid. eauto.
Qed.

Lemma insert_session_inl r db db' e :
  insert_session r db = (db', inl e) -> db' = db.
Proof.
  unfold insert_session.
  destruct (existsb _ (sessions db)); [now inversion 1|].
  destruct (existsb _ (users db)); simpl; [discriminate|now inversion 1].
Qed.

Lemma update_last_login_touched now user_id db :
  Forall2 (touched now user_id) (users db)
          (users (update_last_login now user_id db)).
Proof.
  unfold update_last_login. simpl.
  induction (users db) as [|u l IH]; simpl; constructor; auto.
  unfold touched. destruct (Z.eqb_spec (u_id_user u) user_id); auto.
Qed.

Lemma owners_touch now user_id s (us : list user_row) :
  map (fun u => joined u s)
      (List.filter (fun u => s_user_id s =? u_id_user u)
         (map (fun u => if u_id_user u =? user_id then set_last_login now u else u)
              us))
  = map (fun u => joined u s)
        (List.filter (fun u => s_user_id s =? u_id_user u) us).
Proof.
  induction us as [|u us IH]; simpl; [reflexivity|].
  assert (Hid : u_id_user (if u_id_user u =? user_id
                           then set_last_login now u else u) = u_id_user u)
    by now destruct (u_id_user u =? user_id).
  rewrite Hid. destruct (s_user_id s =? u_id_user u); simpl; [|exact IH].
  rewrite IH. f_equal. now destruct (u_id_user u =? user_id).
Qed.

Lemma session_join_touch token now' now user_id db :
  session_join token now' (update_last_login now user_id db)
  = session_join token now' db.
Proof.
  unfold session_join, update_last_login. simpl.
  apply flat_map_ext. intros s. apply owners_touch.
Qed.

Lemma session_join_insert token now' r db :
  s_token r <> token ->
  session_join token now' (with_sessions db (sessions db ++ [r]))
  = session_join token now' db.
Proof.
  intros Hne. unfold session_join. simpl.
  rewrite List.filter_app. simpl.
  apply String.eqb_neq in Hne. rewrite Hne. simpl. now rewrite app_nil_r.
Qed.

(** ** Login: what a success means and what a login leaves alone *)

Section LoginEffects.

Variable checkpw : string -> string -> string + bool.

Lemma login_cases env rand_token now request login_data db :
  (exists e,
      login checkpw env rand_token now request login_data db = (db, inl e))
  \/ exists u,
      In u (users db)
      /\ u_username u = lr_username login_data
      /\ u_country u = Py.getenv env "COUNTRY" "FRANCE"
      /\ u_is_active u = true
      /\ checkpw (lr_password login_data) (u_password_hash u) = inr true
      /\ ((exists e,
              login checkpw env rand_token now request login_data db
              = (update_last_login now (u_id_user u) db, inl e))
          \/ (insert_session (new_session rand_token now request u)
                             (update_last_login now (u_id_user u) db)
              = (with_sessions (update_last_login now (u_id_user u) db)
                   (sessions db ++ [new_session rand_token now request u]),
                 inr tt)
              /\ login checkpw env rand_token now request login_data db
                 = (with_sessions (update_last_login now (u_id_user u) db)
                      (sessions db ++ [new_session rand_token now request u]),
                    inr (mk_login_response
                           (mk_cookie "auth_token" rand_token true false "lax"
                                      (24 * 60 * 60))
                           "Login successful"
                           (mk_user_summary (u_username u) (u_country u)
                                            (u_role u) (u_full_name u)))))).
Proof.
  unfold login, bind, authenticate_user.
  destruct (fetchone _) as [u|] eqn:Eu; [|left; eexists; reflexivity].
  apply fetchone_filter_some in Eu as [Hu Hp].
  apply andb_prop in Hp as [Hp Hact]. apply andb_prop in Hp as [Hname Hcountry].
  apply String.eqb_eq in Hname, Hcountry. apply Bool.eqb_prop in Hact.
  destruct (checkpw _ _) as [msg|[|]] eqn:Epw;
    [left; eexists; reflexivity| |left; eexists; reflexivity].
  right. exists u. repeat (split; [assumption|]).
  unfold create_session, bind. cbn [au_id_user].
  fold (new_session rand_token now request u).
  destruct (insert_session _ _) as [db2 [e|[]]] eqn:Eins.
  - left. exists e. now rewrite (insert_session_inl _ _ _ _ Eins).
  - right. destruct (insert_session_inr _ _ _ Eins) as (-> & _ & _).
    split; reflexivity.
Qed.

(** X1. A login succeeds only for a stored, active user of the tenant of the
    instance with the username given and a hash that verifies the password.
    It then answers with the public view of that user and the token drawn in
    an http-only cookie whose lifetime is the lifetime of the session, stores
    exactly one more session (that token, that user, expiry 24 hours after
    [now]), and changes no user row except the last login of that user. *)
Theorem login_success_effects :
  forall (env : gmap string string) (rand_token : string) (now : Z)
         (request : Request) (login_data : LoginRequest) (db db' : database)
         (resp : login_response),
    login checkpw env rand_token now request login_data db = (db', inr resp) ->
    exists u,
      In u (users db)
      /\ u_username u = lr_username login_data
      /\ u_country u = Py.getenv env "COUNTRY" "FRANCE"
      /\ u_is_active u = true
      /\ checkpw (lr_password login_data) (u_password_hash u) = inr true
      /\ login_user resp
         = mk_user_summary (u_username u) (u_country u) (u_role u) (u_full_name u)
      /\ cookie_key (login_set_cookie resp) = "auth_token"
      /\ cookie_value (login_set_cookie resp) = rand_token
      /\ cookie_httponly (login_set_cookie resp) = true
      /\ cookie_max_age (login_set_cookie resp) * 1000000
         = timedelta_hours JWT_EXPIRE_HOURS
      /\ sessions db' = (sessions db ++ [new_session rand_token now request u])%list
      /\ Forall2 (touched now (u_id_user u)) (users db) (users db')
      /\ (forall s, In s (sessions db) -> s_token s <> rand_token).
Proof.
  intros env rand_token now request login_data db db' resp Hlogin.
  destruct (login_cases env rand_token now request login_data db)
    as [(e0 & H) | (u & Hu & Hname & Hcountry & Hact & Hpw & [(e & H) | (Hins & H)])];
    rewrite H in Hlogin; try discriminate.
  inversion Hlogin; subst; clear Hlogin.
  exists u. do 11 (split; [assumption || reflexivity|]).
  split; [apply update_last_login_touched|].
  destruct (insert_session_inr _ _ _ Hins) as (_ & Hfresh & _). exact Hfresh.
Qed.

Lemma login_lifetime :
  forall (env : gmap string string) (rand_token : string) (now now' : Z)
         (request : Request) (login_data : LoginRequest) (db db' : database)
         (resp : login_response),
    db_wf db ->
    login checkpw env rand_token now request login_data db = (db', inr resp) ->
    ((exists r, verify_session rand_token now' db' = Some r
                /\ cu_username r = lr_username login_data) <->
     now' < now + timedelta_hours JWT_EXPIRE_HOURS)
    /\ (now + timedelta_hours JWT_EXPIRE_HOURS <= now' ->
        verify_session rand_token now' db' = None).
Proof.
  intros env rand_token now now' request login_data db db' resp Hwf Hlogin.
  destruct (login_cases env rand_token now request login_data db)
    as [(e0 & H) | (u & Hu & Hname & Hcountry & Hact & Hpw & [(e & H) | (Hins & H)])];
    rewrite H in Hlogin; try discriminate.
  injection Hlogin as <- _. clear H.
  set (db1 := update_last_login now (u_id_user u) db) in *.
  set (s := new_session rand_token now request u) in *.
  assert (Hwf1 : db_wf db1) by now apply update_last_login_wf.
  destruct (insert_session_wf s db1 _ Hwf1 Hins) as (Hwf2 & Husers2 & Hsess2).
  assert (Hjoin : session_join rand_token now'
                    (with_sessions db1 (sessions db ++ [s]))
                  = if now' <? s_expires_at s
                    then [joined (set_last_login now u) s] else []).
  { apply session_join_known; auto.
    - rewrite Hsess2. apply in_or_app. right. now left.
    - rewrite Husers2. now apply update_last_login_in. }
  unfold verify_session. rewrite Hjoin. simpl s_expires_at.
  destruct (Z.ltb_spec now' (now + timedelta_hours JWT_EXPIRE_HOURS)) as [Hlt|Hge];
    simpl.
  - rewrite Hact. split; [|lia]. split; auto.
    intros _. eexists. split; [reflexivity|]. exact Hname.
  - split; [|reflexivity]. split; [|lia]. intros (r & Hr & _). discriminate.
Qed.

Lemma login_other_sessions :
  forall (env : gmap string string) (rand_token : string) (now : Z)
         (request : Request) (login_data : LoginRequest) (db : database)
         (token : string) (now' : Z),
    token <> rand_token ->
    verify_session token now'
      (fst (login checkpw env rand_token now request login_data db))
    = verify_session token now' db.
Proof.
  intros env rand_token now request login_data db token now' Hne.
  destruct (login_cases env rand_token now request login_data db)
    as [(e0 & H) | (u & _ & _ & _ & _ & _ & [(e & H) | (_ & H)])];
    rewrite H; simpl; unfold verify_session.
  - reflexivity.
  - now rewrite session_join_touch.
  - change (sessions db) with (sessions (update_last_login now (u_id_user u) db)).
    rewrite session_join_insert; [|simpl; congruence].
    now rewrite session_join_touch.
Qed.

Lemma login_success_inv env rand_token now request login_data db db' resp :
  login checkpw env rand_token now request login_data db = (db', inr resp) ->
  exists u,
    In u (users db)
    /\ u_username u = lr_username login_data
    /\ db' = with_sessions (update_last_login now (u_id_user u) db)
                           (sessions db ++ [new_session rand_token now request u])
    /\ (forall s, In s (sessions db) -> s_token s <> rand_token).
Proof.
  intros Hlogin.
  destruct (login_cases env rand_token now request login_data db)
    as [(e0 & H) | (u & Hu & Hname & _ & _ & _ & [(e & H) | (Hins & H)])];
    rewrite H in Hlogin; try discriminate.
  injection Hlogin as <- _. exists u. split; [exact Hu|]. split; [exact Hname|].
  split; [reflexivity|].
  destruct (insert_session_inr _ _ _ Hins) as (_ & Hfresh & _). exact Hfresh.
Qed.

(** X2. On a database that satisfies the constraints of its schema, the
    token handed out by a successful login at [now] resolves, to the
    username given to [login], exactly at the times before [now] plus 24
    hours: from the expiry on it resolves to nobody, without any sweep. *)
Theorem login_session_lifetime :
  forall (env : gmap string string) (rand_token : string) (now now' : Z)
         (request : Request) (login_data : LoginRequest) (db db' : database)
         (resp : login_response),
    db_wf db ->
    login checkpw env rand_token now request login_data db = (db', inr resp) ->
    ((exists r, verify_session rand_token now' db' = Some r
                /\ cu_username r = lr_username login_data) <->
     now' < now + timedelta_hours JWT_EXPIRE_HOURS)
    /\ (now + timedelta_hours JWT_EXPIRE_HOURS <= now' ->
        verify_session rand_token now' db' = None).
Proof. exact login_lifetime. Qed.

(** X3. Whatever its outcome, a login changes the resolution of no token
    other than the one it draws: the sessions that exist stay as valid or
    invalid as they were, those of the user who logs in included. *)
Theorem login_keeps_other_sessions :
  forall (env : gmap string string) (rand_token : string) (now : Z)
         (request : Request) (login_data : LoginRequest) (db : database)
         (token : string) (now' : Z),
    token <> rand_token ->
    verify_session token now'
      (fst (login checkpw env rand_token now request login_data db))
    = verify_session token now' db.
Proof. exact login_other_sessions. Qed.

End LoginEffects.

(** ** Deleting a session, logging out *)

Lemma filter_filter_absorb {A : Type} (p q : A -> bool) (l : list A) :
  (forall x, p x = true -> q x = true) ->
  List.filter p (List.filter q l) = List.filter p l.
Proof.
  intros H. induction l as [|a l IH]; simpl; [reflexivity|].
  destruct (q a) eqn:Eq; simpl.
  - destruct (p a); [f_equal|]; exact IH.
  - destruct (p a) eqn:Ep; [|exact IH]. rewrite (H a Ep) in Eq. discriminate.
Qed.

Lemma filter_all {A : Type} (q : A -> bool) (l : list A) :
  (forall x, In x l -> q x = true) -> List.filter q l = l.
Proof.
  induction l as [|a l IH]; simpl; intros H; [reflexivity|].
  rewrite (H a (or_introl eq_refl)). f_equal. apply IH. auto.
Qed.

Lemma delete_session_other token t now db :
  t <> token ->
  verify_session t now (fst (delete_session token db)) = verify_session t now db.
Proof.
  intros Hne. unfold verify_session, session_join. simpl.
  rewrite filter_filter_absorb; [reflexivity|].
  intros s Hs. apply andb_prop in Hs as [Hs _]. apply String.eqb_eq in Hs.
  apply negb_true_iff. apply String.eqb_neq. congruence.
Qed.

Lemma get_current_user_cookie request now db c :
  cookies request !! "auth_token" = Some c -> c <> "" ->
  get_current_user request now db = verify_session c now db.
Proof.
  intros Hc Hne. unfold get_current_user. rewrite Hc.
  rewrite (truthy_some c Hne). cbn [negb]. now rewrite (truthy_some c Hne).
Qed.

(** X4. [delete_session] never fails and touches no user.  Afterwards the
    token resolves to nobody, at any time, while every other token resolves
    as before: sessions are revoked one by one.  Deleting a token that no
    session holds changes nothing. *)
Theorem delete_session_revokes_one :
  forall (token : string) (db : database),
    snd (delete_session token db) = inr tt
    /\ users (fst (delete_session token db)) = users db
    /\ (forall now, verify_session token now (fst (delete_session token db))
                    = None)
    /\ (forall t now, t <> token ->
          verify_session t now (fst (delete_session token db))
          = verify_session t now db)
    /\ ((forall s, In s (sessions db) -> s_token s <> token) ->
        fst (delete_session token db) = db).
Proof.
  intros token db. split; [reflexivity|]. split; [reflexivity|].
  split; [intros now; apply delete_session_revokes|].
  split; [intros t now; apply delete_session_other|].
  intros Hunk. unfold delete_session, with_sessions. simpl.
  rewrite filter_all.
  - now destruct db.
  - intros s Hs. apply negb_true_iff. apply String.eqb_neq. auto.
Qed.

(** X5. A logout with a non-empty cookie [auth_token] answers
    ["Logout successful"] and deletes the session of that token: the same
    request identifies nobody afterwards, every other token resolves as
    before, no user row changes, and a second logout changes nothing
    more. *)
Theorem logout_revokes_cookie_session :
  forall (request : Request) (db : database) (c : string),
    cookies request !! "auth_token" = Some c -> c <> "" ->
    snd (logout request db)
    = inr (mk_logout_response "auth_token" "Logout successful")
    /\ (forall now, get_current_user request now (fst (logout request db))
                    = None)
    /\ (forall t now, t <> c ->
          verify_session t now (fst (logout request db))
          = verify_session t now db)
    /\ users (fst (logout request db)) = users db
    /\ logout request (fst (logout request db))
       = (fst (logout request db),
          inr (mk_logout_response "auth_token" "Logout successful")).
Proof.
  intros request db c Hc Hne.
  rewrite (logout_cookie request db c Hc Hne). simpl fst. simpl snd.
  split; [reflexivity|]. split.
  { intros now. rewrite (get_current_user_cookie _ _ _ c Hc Hne).
    apply delete_session_revokes. }
  split; [intros t now; apply delete_session_other|].
  split; [reflexivity|].
  rewrite (logout_cookie request _ c Hc Hne). f_equal.
  unfold delete_session, with_sessions. simpl. now rewrite filter_idem.
Qed.

(** ** Deleting a user *)

Lemma delete_user_cases user_id admin_country db :
  (fetchone (List.filter (fun u => u_id_user u =? user_id) (users db)) = None
   /\ delete_user user_id admin_country db = (db, inl NotFound))
  \/ exists u,
      fetchone (List.filter (fun u => u_id_user u =? user_id) (users db)) = Some u
      /\ In u (users db) /\ u_id_user u = user_id
      /\ ((u_country u <> admin_country
           /\ delete_user user_id admin_country db = (db, inl ForeignTenant))
          \/ (u_country u = admin_country
              /\ Py.startswith (u_role u) "admin_" = true
              /\ delete_user user_id admin_country db = (db, inl ProtectedRole))
          \/ (u_country u = admin_country
              /\ Py.startswith (u_role u) "admin_" = false
              /\ delete_user user_id admin_country db
                 = (delete_user_cascade user_id db, inr true))).
Proof.
  unfold delete_user.
  destruct (fetchone _) as [u|] eqn:Eu; [|now left].
  right. exists u. split; [reflexivity|].
  apply fetchone_filter_some in Eu as [Hu Hid]. apply Z.eqb_eq in Hid.
  split; [exact Hu|]. split; [exact Hid|].
  destruct (String.eqb_spec (u_country u) admin_country) as [Hc|Hc]; simpl.
  - right. destruct (Py.startswith (u_role u) "admin_"); [left|right]; auto.
  - left. auto.
Qed.

(** X6. When user ids are unique, [delete_user] succeeds exactly when a
    stored user has the id, belongs to the tenant of the caller and has a
    role that does not start with [admin_]; it raises the 404 exactly when
    no stored user has the id.  Every failure leaves the database
    unchanged; a success removes that user and the sessions of that user,
    and keeps every other user and every other session. *)
Theorem delete_user_outcome :
  forall (db : database) (user_id : Z) (admin_country : string),
    List.NoDup (map u_id_user (users db)) ->
    (snd (delete_user user_id admin_country db) = inr true <->
     exists u, In u (users db) /\ u_id_user u = user_id
               /\ u_country u = admin_country
               /\ Py.startswith (u_role u) "admin_" = false)
    /\ (snd (delete_user user_id admin_country db) = inl NotFound <->
        forall u, In u (users db) -> u_id_user u <> user_id)
    /\ (forall e, snd (delete_user user_id admin_country db) = inl e ->
          fst (delete_user user_id admin_country db) = db)
    /\ (snd (delete_user user_id admin_country db) = inr true ->
        (forall u', In u' (users (fst (delete_user user_id admin_country db)))
                    <-> In u' (users db) /\ u_id_user u' <> user_id)
        /\ (forall s, In s (sessions (fst (delete_user user_id admin_country db)))
                      <-> In s (sessions db) /\ s_user_id s <> user_id)).
Proof.
  intros db user_id admin_country Hpk.
  assert (Hsame : forall u u', In u (users db) -> In u' (users db) ->
                               u_id_user u = user_id -> u_id_user u' = user_id ->
                               u' = u).
  { intros u u' Hu Hu' Hid Hid'.
    apply (NoDup_map_In_inj u_id_user (users db)); auto. congruence. }
  destruct (delete_user_cases user_id admin_country db)
    as [[Hnone H] | (u & Hsel & Hu & Hid & [[Hc H] | [(Hc & Hadm & H) | (Hc & Hadm & H)]])];
    rewrite H; simpl; unfold NotFound, ForeignTenant, ProtectedRole.
  - pose proof (proj1 (fetchone_filter_none _ _) Hnone) as Hno.
    split; [split; [discriminate|]|split; [split; auto|split; [auto|discriminate]]].
    + intros (u & Hu & Hid & _). specialize (Hno u Hu).
      apply Z.eqb_neq in Hno. contradiction.
    + intros _ u Hu. specialize (Hno u Hu). now apply Z.eqb_neq.
  - split; [split; [discriminate|]|split; [split; [discriminate|]|split; [auto|discriminate]]].
    + intros (u' & Hu' & Hid' & Hc' & _).
      rewrite (Hsame u u' Hu Hu' Hid Hid') in Hc'. contradiction.
    + intros Hno. exfalso. exact (Hno u Hu Hid).
  - split; [split; [discriminate|]|split; [split; [discriminate|]|split; [auto|discriminate]]].
    + intros (u' & Hu' & Hid' & _ & Hadm').
      rewrite (Hsame u u' Hu Hu' Hid Hid') in Hadm'. congruence.
    + intros Hno. exfalso. exact (Hno u Hu Hid).
  - split; [split; [eauto 6|reflexivity]|].
    split; [split; [discriminate|]|split; [discriminate|]].
    + intros Hno. exfalso. exact (Hno u Hu Hid).
    + intros _. split.
      * intros u'. rewrite filter_In, negb_true_iff, Z.eqb_neq. reflexivity.
      * intros s. rewrite filter_In, negb_true_iff, Z.eqb_neq. reflexivity.
Qed.

(** X7. On a database that satisfies the constraints of its schema, once
    [delete_user] has succeeded every token of the deleted user resolves to
    nobody, every other token resolves as before, nobody can authenticate
    with the username of the deleted user, and the constraints still
    hold. *)
Theorem delete_user_revokes :
  forall (checkpw : string -> string -> string + bool) (db db' : database)
         (user_id : Z) (admin_country : string) (u : user_row),
    db_wf db ->
    delete_user user_id admin_country db = (db', inr true) ->
    In u (users db) -> u_id_user u = user_id ->
    (forall token now, token_of db token user_id ->
                       verify_session token now db' = None)
    /\ (forall token now, ~ token_of db token user_id ->
                          verify_session token now db' = verify_session token now db)
    /\ (forall now password country,
           authenticate_user checkpw now (u_username u) password country db'
           = (db', inr None))
    /\ db_wf db'.
Proof.
  intros checkpw db db' user_id admin_country u Hwf Hdel Hu Hid.
  assert (db' = delete_user_cascade user_id db) as ->.
  { destruct (delete_user_cases user_id admin_country db)
      as [[_ H] | (u0 & _ & _ & _ & [[_ H] | [(_ & _ & H) | (_ & _ & H)]])];
      rewrite H in Hdel; try discriminate. now inversion Hdel. }
  clear Hdel.
  pose proof (delete_user_cascade_wf user_id db Hwf) as Hwf'.
  assert (Htok : forall s s', In s (sessions db) -> In s' (sessions db) ->
                              s_token s = s_token s' -> s = s').
  { intros s s' Hs Hs' E.
    apply (NoDup_map_In_inj s_token (sessions db)); auto.
    apply (wf_sessions_pk db Hwf). }
  split; [|split; [|split; [|exact Hwf']]].
  - intros token now (s & Hs & Ht & Hown). unfold verify_session.
    rewrite session_join_unknown; [reflexivity|].
    simpl. intros s' Hs' Ht'. apply filter_In in Hs' as [Hs' Hne].
    apply negb_true_iff, Z.eqb_neq in Hne.
    rewrite (Htok s s' Hs Hs') in Hown; congruence.
  - intros token now Hnot. unfold verify_session.
    destruct (find_session db token) as [Hunk | (s & Hs & Ht)].
    + rewrite (session_join_unknown db _ _ Hunk).
      rewrite session_join_unknown; [reflexivity|].
      simpl. intros s Hs. apply filter_In in Hs as [Hs _]. auto.
    + assert (Hown : s_user_id s <> user_id).
      { intros E. apply Hnot. exists s. auto. }
      destruct (wf_sessions_fk db Hwf s Hs) as (u0 & Hu0 & Hid0).
      rewrite (session_join_known db token now s u0 Hwf Hs Ht Hu0 Hid0).
      rewrite (session_join_known _ token now s u0 Hwf'); auto.
      * simpl. apply filter_In. split; auto.
        now apply negb_true_iff, Z.eqb_neq.
      * simpl. apply filter_In. split; auto.
        apply negb_true_iff, Z.eqb_neq. congruence.
  - intros now password country.
    apply authenticate_user_invalid. apply unknown_username.
    simpl. intros u' Hu' Hname. apply filter_In in Hu' as [Hu' Hne].
    apply negb_true_iff, Z.eqb_neq in Hne.
    assert (u' = u).
    { apply (NoDup_map_In_inj u_username (users db)); auto.
      apply (wf_users_username db Hwf). }
    congruence.
Qed.

(** ** Creating a user, then authenticating *)

Section CreateThenAuthenticate.

Variable checkpw : string -> string -> string + bool.
Variable hashpw : string -> string -> string + string.

Lemma create_user_inserts rand_salt now username password country role
      email full_name db password_hash :
  db_wf db ->
  (forall u, In u (users db) -> u_username u <> username) ->
  hashpw password rand_salt = inr password_hash ->
  exists row db1,
    row = mk_user (users_id_seq db) username password_hash country
                  role email full_name (is_active_default db) now None
    /\ create_user hashpw rand_salt now username password country role
                   email full_name db
       = (db1, inr (mk_new_user (u_id_user row) username country role email
                                full_name now))
    /\ users db1 = (users db ++ [row])%list
    /\ sessions db1 = sessions db
    /\ db_wf db1.
Proof.
  intros Hwf Hfresh Hhash. eexists. eexists. split; [reflexivity|].
  unfold create_user.
  destruct (existsb _ (users db)) eqn:E.
  { apply existsb_username in E as (u & Hu & Hname).
    exfalso. exact (Hfresh u Hu Hname). }
  unfold hash_password. rewrite Hhash.
  destruct (insert_user now username password_hash
              country role email full_name db) as [db1 [e|row]] eqn:Eins.
  - exfalso. unfold insert_user in Eins.
    destruct (existsb _ (users db)) eqn:Eid in Eins; [|discriminate].
    apply existsb_exists in Eid as (u & Hu & Hid). apply Z.eqb_eq in Hid.
    simpl in Hid. pose proof (wf_users_seq db Hwf u Hu). lia.
  - destruct (insert_user_wf _ _ _ _ _ _ _ _ _ _ Hwf Hfresh Eins)
      as (Hwf1 & Husers & Hsess).
    rewrite (bind_inr _ _ _ _ _ Eins). unfold ret.
    unfold insert_user in Eins.
    destruct (existsb _ (users db)) in Eins; [discriminate|].
    inversion Eins; subst; simpl.
    split; [reflexivity|]. split; [reflexivity|]. split; [reflexivity|].
    exact Hwf1.
Qed.

Lemma create_user_raises rand_salt now username password country role
      email full_name db msg :
  (forall u, In u (users db) -> u_username u <> username) ->
  hashpw password rand_salt = inl msg ->
  create_user hashpw rand_salt now username password country role
              email full_name db = (db, inl (ValueError msg)).
Proof.
  intros Hfresh Hmsg. unfold create_user.
  destruct (existsb _ (users db)) eqn:E.
  { apply existsb_username in E as (u & Hu & Hname).
    exfalso. exact (Hfresh u Hu Hname). }
  unfold hash_password. now rewrite Hmsg.
Qed.

(** X8. On a database that satisfies the constraints of its schema, take a
    username that no stored user has.  When [bcrypt.hashpw] raises for the
    password, [create_user] raises that [ValueError] and inserts nothing.
    When it returns a hash, [create_user] succeeds, and for the new user:
    a password that [bcrypt.checkpw] verifies against that hash
    authenticates, with the tenant given, exactly when new rows are active
    by default; a password that it reports false for, and any other
    tenant, do not authenticate; a password for which it raises makes
    [authenticate_user] raise that [ValueError] when the row is active. *)
Theorem create_user_then_authenticate :
  forall (rand_salt : string) (now now' : Z)
         (username password country role : string)
         (email full_name : option string) (db : database),
    db_wf db ->
    (forall u, In u (users db) -> u_username u <> username) ->
    (forall msg,
        hashpw password rand_salt = inl msg ->
        create_user hashpw rand_salt now username password country role
                    email full_name db = (db, inl (ValueError msg)))
    /\ (forall password_hash,
           hashpw password rand_salt = inr password_hash ->
           exists db1 r,
             create_user hashpw rand_salt now username password country role
                         email full_name db = (db1, inr r)
             /\ (forall password',
                    checkpw password' password_hash = inr true ->
                    is_active_default db = true ->
                    exists db2 a,
                      authenticate_user checkpw now' username password' country
                                        db1 = (db2, inr (Some a))
                      /\ au_id_user a = nu_id_user r
                      /\ au_username a = username
                      /\ au_country a = country
                      /\ au_role a = role)
             /\ (is_active_default db = false ->
                 forall password',
                   authenticate_user checkpw now' username password' country db1
                   = (db1, inr None))
             /\ (forall password',
                    checkpw password' password_hash = inr false ->
                    authenticate_user checkpw now' username password' country db1
                    = (db1, inr None))
             /\ (forall password' msg,
                    checkpw password' password_hash = inl msg ->
                    is_active_default db = true ->
                    authenticate_user checkpw now' username password' country db1
                    = (db1, inl (ValueError msg)))
             /\ (forall password' country', country' <> country ->
                    authenticate_user checkpw now' username password' country'
                                      db1 = (db1, inr None))).
Proof.
  intros rand_salt now now' username password country role email full_name db
         Hwf Hfresh.
  split; [intros msg; now apply create_user_raises|].
  intros password_hash Hhash.
  destruct (create_user_inserts rand_salt now username password country role
              email full_name db password_hash Hwf Hfresh Hhash)
    as (row & db1 & Hrow & Hcreate & Husers & Hsess & Hwf1).
  exists db1, (mk_new_user (u_id_user row) username country role email
                           full_name now).
  split; [exact Hcreate|].
  assert (Hin : In row (users db1)).
  { rewrite Husers. apply in_or_app. right. now left. }
  assert (Honly : forall u, In u (users db1) -> u_username u = username ->
                            u = row).
  { intros u Hu Hname.
    apply (NoDup_map_In_inj u_username (users db1)); auto.
    - apply (wf_users_username db1 Hwf1).
    - rewrite Hname, Hrow. reflexivity. }
  split; [|split; [|split; [|split]]].
  - intros password' Hok Hactive.
    eexists. eexists. split.
    + apply (authenticate_user_valid checkpw now' username password' country
               db1 row Hwf1 Hin); subst row; simpl; auto.
    + subst row. simpl. auto.
  - intros Hinactive password'. apply authenticate_user_invalid.
    apply inactive_user.
    intros u Hu Hname _. rewrite (Honly u Hu Hname), Hrow. exact Hinactive.
  - intros password' Hbad. apply authenticate_user_invalid.
    apply wrong_password.
    intros u Hu Hname _. rewrite (Honly u Hu Hname), Hrow. exact Hbad.
  - intros password' msg Hraise Hactive.
    apply (authenticate_user_raises checkpw now' username password' country
             db1 row msg Hwf1 Hin); subst row; simpl; auto.
  - intros password' country' Hne. apply authenticate_user_invalid.
    apply wrong_tenant.
    intros u Hu Hname. rewrite (Honly u Hu Hname), Hrow. simpl. congruence.
Qed.

End CreateThenAuthenticate.

(** ** Listing the users of a tenant *)

Section OrderBy.

Context {A : Type} (leb : A -> A -> bool).

Lemma insert_by_perm (x : A) (l : list A) :
  Permutation (insert_by leb x l) (x :: l).
Proof.
  induction l as [|y l IH]; simpl; [reflexivity|].
  destruct (leb x y); [reflexivity|].
  rewrite IH. apply perm_swap.
Qed.

Lemma order_by_perm (l : list A) : Permutation (order_by leb l) l.
Proof.
  induction l as [|x l IH]; simpl; [reflexivity|].
  rewrite insert_by_perm. now constructor.
Qed.

Hypothesis leb_total : forall a b, leb a b = true \/ leb b a = true.

Lemma insert_by_sorted (x : A) (l : list A) :
  Sorted (fun a b => leb a b = true) l ->
  Sorted (fun a b => leb a b = true) (insert_by leb x l).
Proof.
  induction l as [|y l IH]; simpl; intros Hs.
  - repeat constructor.
  - destruct (leb x y) eqn:E.
    + constructor; [exact Hs|]. now constructor.
    + inversion Hs as [|? ? Hs' Hhd]; subst. constructor; [now apply IH|].
      assert (Hyx : leb y x = true) by (destruct (leb_total x y); congruence).
      destruct l as [|z l]; simpl.
      * now constructor.
      * destruct (leb x z); constructor; [exact Hyx|].
        now inversion Hhd.
Qed.

Lemma order_by_sorted (l : list A) :
  Sorted (fun a b => leb a b = true) (order_by leb l).
Proof.
  induction l as [|x l IH]; simpl; [constructor|]. now apply insert_by_sorted.
Qed.

End OrderBy.

Lemma Sorted_map_listed (l : list user_row) :
  Sorted (fun a b => created_at_desc a b = true) l ->
  Sorted (fun a b => lu_created_at b <= lu_created_at a) (map listed l).
Proof.
  induction 1 as [|u l Hs IH Hhd]; simpl; constructor; auto.
  destruct Hhd as [|v l' Hv]; simpl; constructor.
  unfold created_at_desc in Hv. apply Z.leb_le in Hv. exact Hv.
Qed.

(** The rows that [get_users_by_country] selects. *)
Lemma get_users_by_country_perm role_leb country role db :
  Permutation
    (get_users_by_country role_leb country role db)
    (map listed
       (List.filter
          (fun u => String.eqb (u_country u) country
                    && match role with
                       | Some r => String.eqb r "" || String.eqb (u_role u) r
                       | None => true
                       end)
          (users db))).
Proof.
  assert (Hall : List.filter (fun u => String.eqb (u_country u) country && true)
                             (users db)
                 = List.filter (fun u => String.eqb (u_country u) country)
                               (users db)).
  { apply filter_ext. intros u. apply andb_true_r. }
  unfold get_users_by_country.
  destruct role as [r|]; simpl.
  - destruct (String.eqb_spec r "") as [->|Hr]; simpl;
      apply Permutation_map; rewrite order_by_perm.
    + now rewrite Hall.
    + reflexivity.
  - apply Permutation_map. rewrite order_by_perm. now rewrite Hall.
Qed.

(** X9. [get_users_by_country] returns, in some order and each once, the
    stored users of the tenant asked for, without their password hash, and
    no user of another tenant; an empty role is no filter; a non-empty role
    keeps the users of exactly that role, the most recently created
    first. *)
Theorem get_users_by_country_lists_tenant :
  forall (role_leb : string -> string -> bool) (country : string)
         (role : option string) (db : database),
    Permutation
      (get_users_by_country role_leb country role db)
      (map listed
         (List.filter
            (fun u => String.eqb (u_country u) country
                      && match role with
                         | Some r => String.eqb r "" || String.eqb (u_role u) r
                         | None => true
                         end)
            (users db)))
    /\ (forall x, In x (get_users_by_country role_leb country role db) ->
                  lu_country x = country)
    /\ get_users_by_country role_leb country (Some "") db
       = get_users_by_country role_leb country None db
    /\ (forall r, role = Some r -> r <> "" ->
          Sorted (fun a b => lu_created_at b <= lu_created_at a)
                 (get_users_by_country role_leb country role db)
          /\ forall x, In x (get_users_by_country role_leb country role db) ->
                       lu_role x = r).
Proof.
  intros role_leb country role db.
  pose proof (get_users_by_country_perm role_leb country role db) as Hperm.
  split; [exact Hperm|]. split; [|split].
  - intros x Hx. apply (Permutation_in _ Hperm) in Hx.
    apply in_map_iff in Hx as (u & <- & Hu).
    apply filter_In in Hu as [_ Hp]. apply andb_prop in Hp as [Hc _].
    now apply String.eqb_eq in Hc.
  - reflexivity.
  - intros r -> Hr. split.
    + unfold get_users_by_country. rewrite (truthy_some r Hr).
      apply Sorted_map_listed. apply order_by_sorted.
      intros a b. unfold created_at_desc.
      destruct (Z.leb_spec (u_created_at b) (u_created_at a)); auto.
      right. apply Z.leb_le. lia.
    + intros x Hx. apply (Permutation_in _ Hperm) in Hx.
      apply in_map_iff in Hx as (u & <- & Hu).
      apply filter_In in Hu as [_ Hp]. apply andb_prop in Hp as [_ Hp].
      apply String.eqb_neq in Hr. rewrite Hr in Hp. simpl in Hp.
      now apply String.eqb_eq in Hp.
Qed.

(** ** The guards of the endpoints *)

Lemma require_auth_none request now db :
  get_current_user request now db = None ->
  require_auth request now db = (db, inl Unauthenticated).
Proof. unfold require_auth. now intros ->. Qed.

Lemma guards_pass {A : Type} env now request db user (k : session_user -> M A) :
  get_current_user request now db = Some user ->
  cu_country user = Py.getenv env "COUNTRY" "FRANCE" ->
  bind (require_auth request now)
       (fun current_user =>
          bind (lift (require_country env request current_user)) k) db
  = k user db.
Proof.
  intros Hcur Hcountry.
  rewrite (bind_inr _ _ _ _ _ (require_auth_some _ _ _ _ Hcur)).
  rewrite (bind_inr _ _ db db user); [reflexivity|].
  unfold lift. now rewrite require_country_match.
Qed.

(** X10. Every endpoint modelled answers the 401 [Unauthenticated] to a
    request that identifies nobody.  For a user of the tenant of the
    instance, who-am-I returns the username, tenant and role of the session;
    the three administration endpoints answer the 403 [Forbidden] unless the
    role starts with [admin_], and the list returned to an admin is
    [get_users_by_country] for the tenant of the instance.  None of these
    refusals changes the database. *)
Theorem endpoint_guards :
  forall (role_leb : string -> string -> bool)
         (hashpw : string -> string -> string + string)
         (str_lower : string -> string) (env : gmap string string)
         (now : Z) (request : Request) (db : database),
    (get_current_user request now db = None ->
     get_current_user_info env now request db = (db, inl Unauthenticated)
     /\ get_users role_leb env now request db = (db, inl Unauthenticated)
     /\ (forall rand_salt user_data,
            create_new_user hashpw str_lower env rand_salt now request user_data db
            = (db, inl Unauthenticated))
     /\ (forall user_id,
            delete_user_endpoint env now user_id request db
            = (db, inl Unauthenticated)))
    /\ (forall user,
           get_current_user request now db = Some user ->
           cu_country user = Py.getenv env "COUNTRY" "FRANCE" ->
           get_current_user_info env now request db
           = (db, inr (mk_me_response (cu_username user) (cu_country user)
                                      (cu_role user)))
           /\ (Py.startswith (cu_role user) "admin_" = false ->
               get_users role_leb env now request db = (db, inl Forbidden)
               /\ (forall rand_salt user_data,
                      create_new_user hashpw str_lower env rand_salt now request user_data db
                      = (db, inl Forbidden))
               /\ (forall user_id,
                      delete_user_endpoint env now user_id request db
                      = (db, inl Forbidden)))
           /\ (Py.startswith (cu_role user) "admin_" = true ->
               get_users role_leb env now request db
               = (db, inr (get_users_by_country role_leb
                             (Py.getenv env "COUNTRY" "FRANCE") None db)))).
Proof.
  intros role_leb hashpw str_lower env now request db. split.
  - intros Hnone. pose proof (require_auth_none _ _ _ Hnone) as Hra.
    repeat split; intros;
      [ unfold get_current_user_info | unfold get_users
      | unfold create_new_user | unfold delete_user_endpoint ];
      apply (bind_inl _ _ _ _ _ Hra).
  - intros user Hcur Hcountry. split; [|split].
    + unfold get_current_user_info.
      now rewrite (guards_pass env now request db user _ Hcur Hcountry).
    + intros Hrole. repeat split; intros;
        [ unfold get_users | unfold create_new_user | unfold delete_user_endpoint ];
        rewrite (guards_pass env now request db user _ Hcur Hcountry);
        now rewrite Hrole.
    + intros Hrole. unfold get_users.
      rewrite (guards_pass env now request db user _ Hcur Hcountry).
      rewrite Hrole. simpl. unfold reads. now rewrite Hcountry.
Qed.

(** ** The bearer header *)

Lemma split_head_no_space (t rest : string) :
  no_space t ->
  hd "" (Py.split " " t) = t
  /\ hd "" (Py.split " " (String.append t (String " " rest))) = t.
Proof.
  unfold no_space. induction t as [|c t IH]; intros Hns.
  - split; reflexivity.
  - simpl in Hns.
    assert (Hc : Ascii.eqb c " " = false).
    { apply Ascii.eqb_neq. intros ->. apply Hns. now left. }
    assert (Hns' : ~ In " "%char (list_ascii_of_string t)) by tauto.
    destruct (IH Hns') as [IH1 IH2].
    rewrite append_String. simpl. rewrite Hc. split.
    + destruct (split_not_nil " " t) as (w & ws & E). rewrite E in *.
      simpl in *. now subst.
    + destruct (split_not_nil " " (String.append t (String " " rest)))
        as (w & ws & E). rewrite E in *. simpl in *. now subst.
Qed.

(** X11. For a request without a usable cookie, a header ["Bearer "]
    followed by a token without spaces identifies through that token, and
    whatever follows a further space is ignored; an empty token, as when
    two spaces follow ["Bearer"], identifies nobody. *)
Theorem bearer_header_token :
  forall (request : Request) (now : Z) (db : database) (t : string),
    Py.truthy (cookies request !! "auth_token") = false ->
    no_space t ->
    (headers_get request "Authorization" = Some (String.append "Bearer " t) ->
     get_current_user request now db
     = if String.eqb t "" then None else verify_session t now db)
    /\ (forall junk,
           headers_get request "Authorization"
           = Some (String.append "Bearer " (String.append t (String " " junk))) ->
           get_current_user request now db
           = if String.eqb t "" then None else verify_session t now db).
Proof.
  intros request now db t Hfalsy Hns.
  assert (Hgen : forall rest,
             headers_get request "Authorization"
             = Some (String.append "Bearer " rest) ->
             get_current_user request now db
             = if String.eqb (hd "" (Py.split " " rest)) ""
               then None
               else verify_session (hd "" (Py.split " " rest)) now db).
  { intros rest Hh. unfold get_current_user. rewrite Hfalsy, Hh.
    cbn [negb].
    assert (Hsw : Py.startswith (String.append "Bearer " rest) "Bearer " = true)
      by (apply startswith_append; eauto).
    rewrite Hsw, andb_true_r. cbn [Py.truthy]. rewrite split_bearer.
    rewrite append_String. cbn [String.eqb negb Py.truthy].
    now destruct (String.eqb _ ""). }
  split.
  - intros Hh. rewrite (Hgen _ Hh).
    now rewrite (proj1 (split_head_no_space t "" Hns)).
  - intros junk Hh. rewrite (Hgen _ Hh).
    now rewrite (proj2 (split_head_no_space t junk Hns)).
Qed.

(** ** Creating a user through the endpoint *)

Lemma create_new_user_admin hashpw str_lower env rand_salt now request
      user_data db user :
  get_current_user request now db = Some user ->
  cu_country user = Py.getenv env "COUNTRY" "FRANCE" ->
  Py.startswith (cu_role user) "admin_" = true ->
  create_new_user hashpw str_lower env rand_salt now request user_data db
  = if negb (existsb (String.eqb (cr_role user_data))
               [String.append "chercheur_" (str_lower (cu_country user));
                String.append "admin_" (str_lower (cu_country user))])
    then (db, inl (InvalidRole (cu_country user)
                     [String.append "chercheur_" (str_lower (cu_country user));
                      String.append "admin_" (str_lower (cu_country user))]))
    else
      match create_user hashpw rand_salt now (cr_username user_data)
                        (cr_password user_data) (cu_country user)
                        (cr_role user_data) (cr_email user_data)
                        (cr_full_name user_data) db with
      | (db', inr new_user) =>
          (db', inr (mk_create_response "User created successfully" new_user))
      | (db', inl (HTTPException c d h)) => (db', inl (HTTPException c d h))
      | (db', inl (DatabaseError e)) =>
          (db', inl (HTTPException 500 [Lit "Error creating user: "; FmtExn e] []))
      | (db', inl (ValueError msg)) =>
          (db', inl (HTTPException 500 [Lit "Error creating user: "; Fmt msg] []))
      end.
Proof.
  intros Hcur Hcountry Hadmin. unfold create_new_user.
  rewrite (guards_pass env now request db user _ Hcur Hcountry).
  rewrite Hadmin. cbn [negb].
  destruct (existsb _ _); reflexivity.
Qed.

Lemma append_inj_l (p x y : string) :
  String.append p x = String.append p y -> x = y.
Proof.
  induction p as [|a p IH]; [auto|].
  rewrite !append_String. intros H. injection H as H. auto.
Qed.

(** X12. The form of the dashboard offers [chercheur_] and [admin_] roles
    for [suisse], for [usa], and for [france] in every other case.  When an
    admin of the instance submits one of the roles offered, the API does not
    raise [InvalidRole] if the tenant of the instance is, lowered by
    [str.lower], [suisse], [usa] or [france]; for any other tenant it raises
    [InvalidRole] for each role the form offers, so that no user can be
    created from the dashboard. *)
Theorem role_options_and_api_roles :
  forall (hashpw : string -> string -> string + string)
         (str_lower : string -> string) (env : gmap string string)
         (rand_salt : string) (now : Z) (request : Request)
         (user_data : CreateUserRequest) (db : database) (user : session_user),
    get_current_user request now db = Some user ->
    cu_country user = Py.getenv env "COUNTRY" "FRANCE" ->
    Py.startswith (cu_role user) "admin_" = true ->
    In (cr_role user_data)
       (role_options str_lower (Py.getenv env "COUNTRY" "FRANCE")) ->
    ((str_lower (Py.getenv env "COUNTRY" "FRANCE") = "suisse"
      \/ str_lower (Py.getenv env "COUNTRY" "FRANCE") = "usa"
      \/ str_lower (Py.getenv env "COUNTRY" "FRANCE") = "france") ->
     forall country valid_roles,
       snd (create_new_user hashpw str_lower env rand_salt now request user_data db)
       <> inl (InvalidRole country valid_roles))
    /\ (str_lower (Py.getenv env "COUNTRY" "FRANCE") <> "suisse" ->
        str_lower (Py.getenv env "COUNTRY" "FRANCE") <> "usa" ->
        str_lower (Py.getenv env "COUNTRY" "FRANCE") <> "france" ->
        create_new_user hashpw str_lower env rand_salt now request user_data db
        = (db, inl (InvalidRole (Py.getenv env "COUNTRY" "FRANCE")
                      [String.append "chercheur_"
                         (str_lower (Py.getenv env "COUNTRY" "FRANCE"));
                       String.append "admin_"
                         (str_lower (Py.getenv env "COUNTRY" "FRANCE"))]))).
Proof.
  intros hashpw str_lower env rand_salt now request user_data db user
         Hcur Hcountry Hadmin Hrole.
  rewrite (create_new_user_admin hashpw str_lower env rand_salt now request
             user_data db user Hcur Hcountry Hadmin).
  rewrite Hcountry. set (c := Py.getenv env "COUNTRY" "FRANCE") in *.
  unfold role_options in Hrole. split.
  - intros Hknown country valid_roles.
    assert (Hin : existsb (String.eqb (cr_role user_data))
                    [String.append "chercheur_" (str_lower c);
                     String.append "admin_" (str_lower c)] = true).
    { apply existsb_role.
      destruct Hknown as [E|[E|E]]; rewrite E in *; exact Hrole. }
    rewrite Hin. cbn [negb]. unfold create_user.
    destruct (existsb _ (users db)).
    + unfold InvalidRole, DuplicateUsername. simpl. discriminate.
    + destruct (hash_password _ _ _);
        [unfold InvalidRole; simpl; discriminate|].
      unfold bind, insert_user, ret.
      destruct (existsb _ (users db)); unfold InvalidRole; simpl; discriminate.
  - intros Hs Hu Hf.
    apply String.eqb_neq in Hs, Hu. rewrite Hs, Hu in Hrole.
    assert (Hout : existsb (String.eqb (cr_role user_data))
                     [String.append "chercheur_" (str_lower c);
                      String.append "admin_" (str_lower c)] = false).
    { destruct (existsb _ _) eqn:E; [|reflexivity].
      apply existsb_role in E. exfalso.
      destruct Hrole as [Hr|[Hr|[]]]; destruct E as [E|[E|[]]];
        rewrite <- Hr in E.
      - apply append_inj_l in E. auto.
      - rewrite !append_String in E. discriminate.
      - rewrite !append_String in E. discriminate.
      - apply append_inj_l in E. auto. }
    now rewrite Hout.
Qed.

Lemma flat_map_ext_in {A B : Type} (f g : A -> list B) (l : list A) :
  (forall a, In a l -> f a = g a) -> flat_map f l = flat_map g l.
Proof.
  induction l as [|a l IH]; simpl; intros H; [reflexivity|].
  rewrite (H a (or_introl eq_refl)), IH; auto.
Qed.

(** A new user row with a fresh id owns no session. *)
Lemma session_join_new_user token now db db1 row :
  db_wf db ->
  users db1 = (users db ++ [row])%list -> sessions db1 = sessions db ->
  u_id_user row = users_id_seq db ->
  session_join token now db1 = session_join token now db.
Proof.
  intros Hwf Husers Hsess Hid. unfold session_join. rewrite Husers, Hsess.
  apply flat_map_ext_in. intros s Hs. apply filter_In in Hs as [Hs _].
  rewrite List.filter_app. simpl.
  destruct (Z.eqb_spec (s_user_id s) (u_id_user row)) as [E|E].
  - exfalso. destruct (wf_sessions_fk db Hwf s Hs) as (u & Hu & Hown).
    pose proof (wf_users_seq db Hwf u Hu). lia.
  - now rewrite app_nil_r.
Qed.

Lemma get_current_user_ext request now db db1 :
  (forall token, verify_session token now db1 = verify_session token now db) ->
  get_current_user request now db1 = get_current_user request now db.
Proof.
  intros H. unfold get_current_user. cbv zeta.
  match goal with
  | |- match ?tok with Some _ => _ | None => _ end = _ => destruct tok as [t|]
  end; [|reflexivity].
  destruct (negb _); [reflexivity|]. apply H.
Qed.

(** X13. On a database that satisfies the constraints of its schema, an
    admin of the instance asks for a role of the tenant.  With a username
    that a stored user has, [create_new_user] answers [DuplicateUsername]
    and changes nothing.  With a username that no stored user has: when
    [bcrypt.hashpw] returns a hash, it succeeds, the session of the admin
    still identifies the admin, and the list of [get_users] then holds the
    new user, with the username and role asked for and the tenant of the
    admin, beside every user listed before; when [bcrypt.hashpw] raises, it
    answers the 500 ["Error creating user: "] with the message of bcrypt and
    inserts nothing. *)
Theorem create_new_user_then_listed :
  forall (role_leb : string -> string -> bool)
         (hashpw : string -> string -> string + string)
         (str_lower : string -> string) (env : gmap string string)
         (rand_salt : string) (now : Z) (request : Request)
         (user_data : CreateUserRequest) (db : database) (user : session_user),
    db_wf db ->
    get_current_user request now db = Some user ->
    cu_country user = Py.getenv env "COUNTRY" "FRANCE" ->
    Py.startswith (cu_role user) "admin_" = true ->
    In (cr_role user_data)
       [String.append "chercheur_" (str_lower (cu_country user));
        String.append "admin_" (str_lower (cu_country user))] ->
    ((exists u, In u (users db) /\ u_username u = cr_username user_data) ->
     create_new_user hashpw str_lower env rand_salt now request user_data db
     = (db, inl DuplicateUsername))
    /\ ((forall u, In u (users db) -> u_username u <> cr_username user_data) ->
        forall password_hash,
          hashpw (cr_password user_data) rand_salt = inr password_hash ->
          exists db1 resp users_list x,
            create_new_user hashpw str_lower env rand_salt now request
                            user_data db = (db1, inr resp)
            /\ create_message resp = "User created successfully"
            /\ get_current_user request now db1 = Some user
            /\ get_users role_leb env now request db1 = (db1, inr users_list)
            /\ In x users_list
            /\ lu_id_user x = nu_id_user (create_user_row resp)
            /\ lu_username x = cr_username user_data
            /\ lu_role x = cr_role user_data
            /\ lu_country x = cu_country user
            /\ (forall y,
                   In y (get_users_by_country role_leb (cu_country user) None
                                             db) ->
                   In y users_list))
    /\ ((forall u, In u (users db) -> u_username u <> cr_username user_data) ->
        forall msg,
          hashpw (cr_password user_data) rand_salt = inl msg ->
          create_new_user hashpw str_lower env rand_salt now request user_data db
          = (db, inl (HTTPException 500
                        [Lit "Error creating user: "; Fmt msg] []))).
Proof.
  intros role_leb hashpw str_lower env rand_salt now request user_data db user
         Hwf Hcur Hcountry Hadmin Hrole.
  rewrite (create_new_user_admin hashpw str_lower env rand_salt now request
             user_data db user Hcur Hcountry Hadmin).
  apply existsb_role in Hrole. rewrite Hrole. cbn [negb].
  split; [|split].
  - intros Hdup. unfold create_user.
    apply existsb_username in Hdup. now rewrite Hdup.
  - intros Hfresh password_hash Hhash.
    destruct (create_user_inserts hashpw rand_salt now (cr_username user_data)
                (cr_password user_data) (cu_country user) (cr_role user_data)
                (cr_email user_data) (cr_full_name user_data) db password_hash
                Hwf Hfresh Hhash)
      as (row & db1 & Hrow & Hcreate & Husers & Hsess & Hwf1).
    rewrite Hcreate.
    assert (Hcur1 : get_current_user request now db1 = Some user).
    { rewrite <- Hcur. apply get_current_user_ext. intros token.
      unfold verify_session.
      rewrite (session_join_new_user token now db db1 row Hwf Husers Hsess);
        [reflexivity|]. now rewrite Hrow. }
    exists db1. eexists. eexists. exists (listed row).
    split; [reflexivity|]. split; [reflexivity|]. split; [exact Hcur1|].
    split.
    { unfold get_users.
      rewrite (guards_pass env now request db1 user _ Hcur1 Hcountry).
      rewrite Hadmin. reflexivity. }
    assert (Hperm := fun d => get_users_by_country_perm role_leb (cu_country user)
                                None d).
    split; [|rewrite Hrow; simpl; repeat split; auto].
    + apply (Permutation_in _ (Permutation_sym (Hperm db1))).
      apply in_map. apply filter_In. split.
      * rewrite Husers. apply in_or_app. right. now left.
      * rewrite Hrow. simpl. now rewrite String.eqb_refl.
    + intros y Hy. apply (Permutation_in _ (Hperm db)) in Hy.
      apply (Permutation_in _ (Permutation_sym (Hperm db1))).
      apply in_map_iff in Hy as (u & <- & Hu). apply in_map.
      apply filter_In in Hu as [Hu Hp]. apply filter_In. split; auto.
      rewrite Husers. apply in_or_app. now left.
  - intros Hfresh msg Hmsg.
    now rewrite (create_user_raises hashpw rand_salt now _ _ _ _ _ _ db msg
                   Hfresh Hmsg).
Qed.

(** ** The handlers keep the constraints of the schema *)

Lemma login_wf checkpw env rand_token now request login_data db :
  db_wf db ->
  db_wf (fst (login checkpw env rand_token now request login_data db)).
Proof.
  intros Hwf.
  destruct (login_cases checkpw env rand_token now request login_data db)
    as [(e0 & H) | (u & _ & _ & _ & _ & _ & [(e & H) | (Hins & H)])];
    rewrite H; simpl fst.
  - exact Hwf.
  - now apply update_last_login_wf.
  - apply (insert_session_wf _ _ _ (update_last_login_wf now _ db Hwf) Hins).
Qed.

Lemma create_user_wf hashpw rand_salt now username password country role
      email full_name db :
  db_wf db ->
  db_wf (fst (create_user hashpw rand_salt now username password country role
                          email full_name db)).
Proof.
  intros Hwf. unfold create_user.
  destruct (existsb _ (users db)) eqn:E; [exact Hwf|].
  assert (Hfresh : forall u, In u (users db) -> u_username u <> username).
  { intros u Hu Hname.
    assert (existsb (fun u => String.eqb (u_username u) username) (users db)
            = true) by (apply existsb_username; eauto).
    congruence. }
  destruct (hash_password _ _ _) as [msg|h]; [exact Hwf|].
  unfold bind.
  destruct (insert_user _ _ _ _ _ _ _ db) as [db1 [e|row]] eqn:Eins; simpl.
  - unfold insert_user in Eins.
    destruct (existsb _ (users db)) in Eins; inversion Eins. now subst.
  - apply (insert_user_wf _ _ _ _ _ _ _ _ _ _ Hwf Hfresh Eins).
Qed.

Lemma create_new_user_wf hashpw str_lower env rand_salt now request user_data
      db :
  db_wf db ->
  db_wf (fst (create_new_user hashpw str_lower env rand_salt now request user_data db)).
Proof.
  intros Hwf. unfold create_new_user, bind, require_auth, lift.
  destruct (get_current_user request now db) as [user|]; [|exact Hwf].
  destruct (require_country env request user) as [e|user']; [exact Hwf|].
  destruct (negb (Py.startswith _ _)); [exact Hwf|].
  destruct (negb (existsb _ _)); [exact Hwf|].
  pose proof (create_user_wf hashpw rand_salt now (cr_username user_data)
                (cr_password user_data) (cu_country user') (cr_role user_data)
                (cr_email user_data) (cr_full_name user_data) db Hwf) as H.
  destruct (create_user _ _ _ _ _ _ _ _ _ db) as [db1 [[c d h|e|msg]|r]];
    exact H.
Qed.

Lemma delete_user_wf user_id admin_country db :
  db_wf db -> db_wf (fst (delete_user user_id admin_country db)).
Proof.
  intros Hwf.
  destruct (delete_user_cases user_id admin_country db)
    as [[_ H] | (u & _ & _ & _ & [[_ H] | [(_ & _ & H) | (_ & _ & H)]])];
    rewrite H; simpl; auto.
  now apply delete_user_cascade_wf.
Qed.

Lemma delete_user_endpoint_wf env now user_id request db :
  db_wf db -> db_wf (fst (delete_user_endpoint env now user_id request db)).
Proof.
  intros Hwf. unfold delete_user_endpoint, bind, require_auth, lift.
  destruct (get_current_user request now db) as [user|]; [|exact Hwf].
  destruct (require_country env request user) as [e|user']; [exact Hwf|].
  destruct (negb (Py.startswith _ _)); [exact Hwf|].
  pose proof (delete_user_wf user_id (cu_country user') db Hwf) as H.
  destruct (delete_user _ _ db) as [db1 [[c d h|e|msg]|r]]; exact H.
Qed.

(** X14. Each handler that writes (login, logout, user creation, user
    deletion) takes a database that satisfies the constraints of its schema
    to one that satisfies them, whatever its outcome: user ids and tokens
    stay unique, usernames stay unique in the whole system, every session
    keeps a stored owner, and the id sequence stays ahead. *)
Theorem handlers_keep_db_wf :
  forall (checkpw : string -> string -> string + bool)
         (hashpw : string -> string -> string + string)
         (str_lower : string -> string) (env : gmap string string)
         (now : Z) (request : Request) (db : database),
    db_wf db ->
    (forall rand_token login_data,
        db_wf (fst (login checkpw env rand_token now request login_data db)))
    /\ db_wf (fst (logout request db))
    /\ (forall rand_salt user_data,
           db_wf (fst (create_new_user hashpw str_lower env rand_salt now request
                                       user_data db)))
    /\ (forall user_id,
           db_wf (fst (delete_user_endpoint env now user_id request db))).
Proof.
  intros checkpw hashpw str_lower env now request db Hwf.
  split; [|split; [|split]].
  - intros. now apply login_wf.
  - unfold logout, bind.
    destruct (cookies request !! "auth_token") as [t|]; [|exact Hwf].
    destruct (Py.truthy (Some t)); [|exact Hwf].
    apply (delete_session_wf t db Hwf).
  - intros. now apply create_new_user_wf.
  - intros. now apply delete_user_endpoint_wf.
Qed.

(** X15. When user ids are unique, the deletion endpoint removes at most
    the user whose id is given, and never a user of another tenant than the
    instance nor a user whose role starts with [admin_]: all of them are
    stored afterwards, whoever the caller is. *)
Theorem delete_user_endpoint_never_removes :
  forall (env : gmap string string) (now : Z) (user_id : Z)
         (request : Request) (db : database) (u : user_row),
    List.NoDup (map u_id_user (users db)) ->
    In u (users db) ->
    u_id_user u <> user_id
    \/ u_country u <> Py.getenv env "COUNTRY" "FRANCE"
    \/ Py.startswith (u_role u) "admin_" = true ->
    In u (users (fst (delete_user_endpoint env now user_id request db))).
Proof.
  intros env now user_id request db u Hpk Hu Hkeep.
  unfold delete_user_endpoint, bind, require_auth, lift.
  destruct (get_current_user request now db) as [user|]; [|exact Hu].
  destruct (require_country env request user) as [e|user'] eqn:Erc; [exact Hu|].
  assert (user' = user) as ->.
  { unfold require_country in Erc. destruct (negb _) in Erc; now inversion Erc. }
  apply require_country_iff in Erc.
  destruct (negb (Py.startswith _ _)); [exact Hu|].
  destruct (delete_user_cases user_id (cu_country user) db)
    as [[_ H] | (u0 & _ & Hu0 & Hid0 & [[_ H] | [(_ & _ & H) | (Hc & Hadm & H)]])];
    rewrite H; simpl; auto.
  apply filter_In. split; [exact Hu|]. apply negb_true_iff, Z.eqb_neq.
  intros Hid.
  assert (u = u0) as ->.
  { apply (NoDup_map_In_inj u_id_user (users db)); auto. congruence. }
  destruct Hkeep as [Hk|[Hk|Hk]]; congruence.
Qed.

(** ** Several sessions *)

Section TwoLogins.

Variable checkpw : string -> string -> string + bool.

(** X16. On a database that satisfies the constraints of its schema, two
    successful logins in a row, of one user or of two, hold different
    tokens; after the second login each token resolves to the username of
    its own login until its own expiry, and deleting the first session
    revokes the first token and leaves the second as it was. *)
Theorem two_logins_independent :
  forall (env : gmap string string) (tok1 tok2 : string) (now1 now2 : Z)
         (req1 req2 : Request) (data1 data2 : LoginRequest)
         (db db1 db2 : database) (resp1 resp2 : login_response),
    db_wf db ->
    login checkpw env tok1 now1 req1 data1 db = (db1, inr resp1) ->
    login checkpw env tok2 now2 req2 data2 db1 = (db2, inr resp2) ->
    tok1 <> tok2
    /\ (forall now', now' < now1 + timedelta_hours JWT_EXPIRE_HOURS ->
          exists r, verify_session tok1 now' db2 = Some r
                    /\ cu_username r = lr_username data1)
    /\ (forall now', now' < now2 + timedelta_hours JWT_EXPIRE_HOURS ->
          exists r, verify_session tok2 now' db2 = Some r
                    /\ cu_username r = lr_username data2)
    /\ (forall now', verify_session tok2 now' (fst (delete_session tok1 db2))
                     = verify_session tok2 now' db2)
    /\ (forall now', verify_session tok1 now' (fst (delete_session tok1 db2))
                     = None).
Proof.
  intros env tok1 tok2 now1 now2 req1 req2 data1 data2 db db1 db2 resp1 resp2
         Hwf Hl1 Hl2.
  assert (Hwf1 : db_wf db1).
  { pose proof (login_wf checkpw env tok1 now1 req1 data1 db Hwf) as H.
    now rewrite Hl1 in H. }
  assert (Hne : tok1 <> tok2).
  { destruct (login_success_inv checkpw _ _ _ _ _ _ _ _ Hl1) as (u1 & _ & _ & -> & _).
    destruct (login_success_inv checkpw _ _ _ _ _ _ _ _ Hl2) as (u2 & _ & _ & _ & Hfresh).
    apply (Hfresh (new_session tok1 now1 req1 u1)).
    simpl. apply in_or_app. right. now left. }
  split; [exact Hne|]. split; [|split; [|split]].
  - intros now' Hlive.
    pose proof (login_other_sessions checkpw env tok2 now2 req2 data2 db1 tok1 now' Hne)
      as Hkeep.
    rewrite Hl2 in Hkeep. simpl in Hkeep. rewrite Hkeep.
    now apply (login_lifetime checkpw env tok1 now1 now' req1 data1 db db1 resp1 Hwf Hl1).
  - intros now' Hlive.
    now apply (login_lifetime checkpw env tok2 now2 now' req2 data2 db1 db2 resp2 Hwf1 Hl2).
  - intros now'. apply delete_session_other. congruence.
  - intros now'. apply delete_session_revokes.
Qed.

End TwoLogins.

(** ** The further properties on the sample data *)

Lemma login_success_effects_witness :
  exists u, In u (users Sample.db0) /\ u_username u = "alice"
            /\ u_is_active u = true.
Proof.
  destruct (login_success_effects Sample.checkpw Sample.env_fr "T" 5
              (Sample.req None None) Demo.data_alice Sample.db0
              Demo.db_T (Demo.resp_alice "T"))
    as (u & Hu & Hname & _ & Hact & _).
  - vm_compute. reflexivity.
  - exists u. auto.
Defined.

(** The token of alice's login at time 5 is dead 24 hours later. *)
Lemma login_session_lifetime_witness :
  verify_session "T" (5 + timedelta_hours JWT_EXPIRE_HOURS) Demo.db_T = None.
Proof.
  apply (login_session_lifetime Sample.checkpw Sample.env_fr "T" 5
           (5 + timedelta_hours JWT_EXPIRE_HOURS) (Sample.req None None)
           Demo.data_alice Sample.db0 Demo.db_T (Demo.resp_alice "T")).
  - exact db0_wf.
  - vm_compute. reflexivity.
  - lia.
Defined.

(** The session of the admin of FRANCE is as it was after alice's login. *)
Lemma login_keeps_other_sessions_witness :
  verify_session "tok-root-fr" 6 Demo.db_T
  = verify_session "tok-root-fr" 6 Sample.db0.
Proof.
  apply (login_keeps_other_sessions Sample.checkpw Sample.env_fr "T" 5
           (Sample.req None None) Demo.data_alice Sample.db0 "tok-root-fr" 6).
  discriminate.
Defined.

Lemma delete_session_revokes_one_witness :
  verify_session "tok-root-fr" 5 (fst (delete_session "tok-alice" Sample.db0))
  = verify_session "tok-root-fr" 5 Sample.db0
  /\ fst (delete_session "no-such-token" Sample.db0) = Sample.db0.
Proof.
  destruct (delete_session_revokes_one "tok-alice" Sample.db0)
    as (_ & _ & _ & Hother & _).
  destruct (delete_session_revokes_one "no-such-token" Sample.db0)
    as (_ & _ & _ & _ & Hnoop).
  split.
  - apply Hother. discriminate.
  - apply Hnoop. simpl.
    intros s [<-|[<-|[<-|[<-|[]]]]]; simpl; discriminate.
Defined.

Lemma logout_revokes_cookie_session_witness :
  get_current_user (Sample.req (Some "tok-alice") None) 5
    (fst (logout (Sample.req (Some "tok-alice") None) Sample.db0))
  = None.
Proof.
  destruct (logout_revokes_cookie_session (Sample.req (Some "tok-alice") None)
              Sample.db0 "tok-alice") as (_ & H & _).
  - vm_compute. reflexivity.
  - discriminate.
  - exact (H 5).
Defined.

(** The admin of FRANCE may delete alice, not the admin of USA. *)
Lemma delete_user_outcome_witness :
  snd (delete_user 1 "FRANCE" Sample.db0) = inr true
  /\ fst (delete_user 3 "FRANCE" Sample.db0) = Sample.db0.
Proof.
  destruct (delete_user_outcome Sample.db0 1 "FRANCE"
              (wf_users_pk _ db0_wf)) as (Hok & _).
  destruct (delete_user_outcome Sample.db0 3 "FRANCE"
              (wf_users_pk _ db0_wf)) as (_ & _ & Hfail & _).
  split.
  - apply Hok. exists Sample.alice. simpl. tauto.
  - apply (Hfail ForeignTenant). reflexivity.
Defined.

(** Once alice is deleted, her token resolves to nobody. *)
Lemma delete_user_revokes_witness :
  verify_session "tok-alice" 5 (fst (delete_user 1 "FRANCE" Sample.db0))
  = None.
Proof.
  apply (delete_user_revokes Sample.checkpw Sample.db0
           (fst (delete_user 1 "FRANCE" Sample.db0)) 1 "FRANCE" Sample.alice).
  - exact db0_wf.
  - reflexivity.
  - simpl. tauto.
  - reflexivity.
  - exists Sample.sess_alice. simpl. tauto.
Defined.

(** carol, created for USA, authenticates with her password; with a
    password of 73 bytes her creation raises. *)
Lemma create_user_then_authenticate_witness :
  (exists db1 r,
      create_user Sample.hashpw "salt" 7 "carol" "pw" "USA" "chercheur_usa"
                  None None Sample.db0 = (db1, inr r)
      /\ exists db2 a,
          authenticate_user Sample.checkpw 8 "carol" "pw" "USA" db1
          = (db2, inr (Some a))
          /\ au_role a = "chercheur_usa")
  /\ create_user Sample.hashpw "salt" 7 "carol" Sample.long_password "USA"
                 "chercheur_usa" None None Sample.db0
     = (Sample.db0, inl (ValueError Sample.too_long)).
Proof.
  assert (Hfresh : forall u, In u (users Sample.db0) -> u_username u <> "carol").
  { simpl. intros u [<-|[<-|[<-|[<-|[]]]]]; simpl; discriminate. }
  destruct (create_user_then_authenticate Sample.checkpw Sample.hashpw "salt"
              7 8 "carol" "pw" "USA" "chercheur_usa" None None Sample.db0
              db0_wf Hfresh) as [_ Hok].
  destruct (create_user_then_authenticate Sample.checkpw Sample.hashpw "salt"
              7 8 "carol" Sample.long_password "USA" "chercheur_usa" None None
              Sample.db0 db0_wf Hfresh) as [Hraise _].
  split.
  - destruct (Hok "salt$pw" eq_refl) as (db1 & r & Hc & Hauth & _).
    exists db1, r. split; [exact Hc|].
    destruct (Hauth "pw" eq_refl eq_refl) as (db2 & a & Ha & _ & _ & _ & Hrole).
    exists db2, a. auto.
  - apply Hraise. reflexivity.
Defined.

Lemma get_users_by_country_lists_tenant_witness :
  Sorted (fun a b => lu_created_at b <= lu_created_at a)
         (get_users_by_country String.leb "FRANCE" (Some "chercheur_france")
            Sample.db0).
Proof.
  destruct (get_users_by_country_lists_tenant String.leb "FRANCE"
              (Some "chercheur_france") Sample.db0) as (_ & _ & _ & H).
  destruct (H "chercheur_france") as [Hsorted _].
  - reflexivity.
  - discriminate.
  - exact Hsorted.
Defined.

(** alice, who is no admin, may ask who she is but not list the users. *)
Lemma endpoint_guards_witness :
  get_users String.leb Sample.env_fr 5 (Sample.req (Some "tok-alice") None)
            Sample.db0
  = (Sample.db0, inl Forbidden).
Proof.
  destruct (endpoint_guards String.leb Sample.hashpw Py.ascii_lower
              Sample.env_fr 5
              (Sample.req (Some "tok-alice") None) Sample.db0) as [_ H].
  destruct (H (joined Sample.alice Sample.sess_alice)) as (_ & Hdeny & _).
  - vm_compute. reflexivity.
  - vm_compute. reflexivity.
  - destruct Hdeny as [Hlist _]; [reflexivity|]. exact Hlist.
Defined.

(** Two spaces after [Bearer] identify nobody. *)
Lemma bearer_header_token_witness :
  get_current_user (Sample.req None (Some "Bearer  tok-alice")) 5 Sample.db0
  = None.
Proof.
  destruct (bearer_header_token (Sample.req None (Some "Bearer  tok-alice")) 5
              Sample.db0 "") as [_ H].
  - reflexivity.
  - intros [].
  - apply (H "tok-alice"). vm_compute. reflexivity.
Defined.

(** On an instance for GERMANY, the role [chercheur_france] that the form of
    the dashboard offers is refused. *)
Lemma role_options_and_api_roles_witness :
  create_new_user Sample.hashpw Py.ascii_lower Demo.env_de "salt" 7
    (Sample.req (Some "tok-root-de") None)
    (mk_create_user_request "hans" "pw" "chercheur_france" None None) Demo.db_de
  = (Demo.db_de,
     inl (InvalidRole "GERMANY" ["chercheur_germany"; "admin_germany"])).
Proof.
  destruct (role_options_and_api_roles Sample.hashpw Py.ascii_lower
              Demo.env_de "salt" 7
              (Sample.req (Some "tok-root-de") None)
              (mk_create_user_request "hans" "pw" "chercheur_france" None None)
              Demo.db_de
              (joined Demo.root_de (mk_session "tok-root-de" 1 1000 None None)))
    as [_ H].
  - vm_compute. reflexivity.
  - vm_compute. reflexivity.
  - reflexivity.
  - vm_compute. tauto.
  - apply H; vm_compute; discriminate.
Defined.

(** The admin of FRANCE creates carol and finds her in the list. *)
Lemma create_new_user_then_listed_witness :
  exists db1 resp users_list x,
    create_new_user Sample.hashpw Py.ascii_lower Sample.env_fr "salt" 7
      (Sample.req (Some "tok-root-fr") None)
      (mk_create_user_request "carol" "pw" "chercheur_france" None None)
      Sample.db0 = (db1, inr resp)
    /\ get_users String.leb Sample.env_fr 7
         (Sample.req (Some "tok-root-fr") None) db1 = (db1, inr users_list)
    /\ In x users_list
    /\ lu_username x = "carol".
Proof.
  destruct (create_new_user_then_listed String.leb Sample.hashpw
              Py.ascii_lower Sample.env_fr
              "salt" 7 (Sample.req (Some "tok-root-fr") None)
              (mk_create_user_request "carol" "pw" "chercheur_france" None None)
              Sample.db0 (joined Sample.root_fr Sample.sess_root_fr))
    as [_ [H _]].
  - exact db0_wf.
  - vm_compute. reflexivity.
  - vm_compute. reflexivity.
  - reflexivity.
  - vm_compute. tauto.
  - destruct (H ltac:(simpl; intros u [<-|[<-|[<-|[<-|[]]]]]; simpl;
                      discriminate) "salt$pw" eq_refl)
      as (db1 & resp & l & x & H1 & _ & _ & H4 & H5 & _ & H7 & _).
    exists db1, resp, l, x. auto.
Defined.

Lemma handlers_keep_db_wf_witness : db_wf Demo.db_T.
Proof.
  destruct (handlers_keep_db_wf Sample.checkpw Sample.hashpw Py.ascii_lower
              Sample.env_fr 5
              (Sample.req None None) Sample.db0 db0_wf) as [H _].
  exact (H "T" Demo.data_alice).
Defined.

(** Whoever asks, the admin of USA is not removed from the instance of
    FRANCE. *)
Lemma delete_user_endpoint_never_removes_witness :
  In Sample.root_us
     (users (fst (delete_user_endpoint Sample.env_fr 5 3
                    (Sample.req (Some "tok-root-fr") None) Sample.db0))).
Proof.
  apply delete_user_endpoint_never_removes.
  - exact (wf_users_pk _ db0_wf).
  - simpl. tauto.
  - right. left. vm_compute. discriminate.
Defined.

(** alice logs in twice: both tokens identify her. *)
Lemma two_logins_independent_witness :
  "T" <> "T2"
  /\ exists r, verify_session "T" 8 Demo.db_T2 = Some r
               /\ cu_username r = "alice".
Proof.
  destruct (two_logins_independent Sample.checkpw Sample.env_fr "T" "T2" 5 7
              (Sample.req None None) (Sample.req None None)
              Demo.data_alice Demo.data_alice Sample.db0 Demo.db_T Demo.db_T2
              (Demo.resp_alice "T") (Demo.resp_alice "T2"))
    as (Hne & H1 & _).
  - exact db0_wf.
  - vm_compute. reflexivity.
  - vm_compute. reflexivity.
  - split; [exact Hne|]. apply (H1 8). vm_compute. reflexivity.
Defined.
